(** * Force of infection in households and places (pyEpiabm)

    A shallow embedding of
      - [pyEpiabm/property/household_foi.py] (class [HouseholdInfection]) and
      - [pyEpiabm/property/place_foi.py]     (class [PlaceInfection]),
    together with the properties their specification states about them.

    Modelling choices.
      - Python numbers ([int] and [float]) are exact rationals [Q]; rounding
        of binary floating point is not modelled.  Results are compared with
        [==] ([Qeq]).
      - Python objects live in a store ([World]) and are passed by reference;
        every function is a computation that receives the store, may raise an
        exception, and hands the store on, so that "does not mutate" is a
        statement and not a typing accident.
      - Every read of the [Parameters] singleton is recorded in a trace, so
        that "is looked up" / "is never looked up" can be stated.
      - The dictionaries of [Parameters] are finite maps with string keys; a
        missing key is [KeyError], a list index out of range is [IndexError].
      - [PersonalInfection.person_inf], [PersonalInfection.person_susc] and
        [Person.is_place_closed] are defined in other files of the package;
        they are taken as parameters (class [Collaborators]) and may be any
        computation whatsoever. *)

From Stdlib Require Import QArith Qfield Lqa ZArith List.
From stdpp Require Import base option strings gmap.
Import ListNotations.

Local Open Scope string_scope.
Local Open Scope Q_scope.

(** ** Values, exceptions, objects *)

(** The Python exceptions the two modules can raise themselves. *)
Inductive exn : Type :=
| KeyError
| IndexError
| TypeError
| AttributeError
| ZeroDivisionError.

Inductive result (A : Type) : Type :=
| Ok (a : A)
| Raise (e : exn).
Arguments Ok {A} a.
Arguments Raise {A} e.

(** A configured value: a scalar, or a per-place-type sequence. *)
Inductive value : Type :=
| VNum (q : Q)
| VList (l : list Q).

(** An optional attribute of an object, as seen through [hasattr] and
    [is not None]: not there at all, there and [None], or there with a
    number. *)
Inductive attr : Type :=
| Absent
| PyNone
| Val (t : Q).

Definition ref := nat.

Record Microcell : Type := {
  closure_start_time : attr;
  distancing_start_time : attr
}.

Record Person : Type := {
  microcell : ref;
  care_home_resident : bool;
  key_worker : bool;
  distancing_enhanced : bool;
  isolation_start_time : attr;
  quarantine_start_time : attr
}.

(** [place_type] holds [place.place_type.value], the integer of the
    [PlaceType] enumeration. *)
Record Place : Type := {
  place_type : Z
}.

Record Parameters : Type := {
  household_transmission : Q;
  place_params : gmap string value;
  carehome_params : gmap string value;
  intervention_params : gmap string (gmap string value)
}.

(** The store: the [Parameters] singleton and the state of every person,
    microcell and place. *)
Record World : Type := {
  parameters : Parameters;
  persons : ref -> Person;
  microcells : ref -> Microcell;
  places : ref -> Place
}.

(** ** The effect monad: store, trace of [Parameters] reads, exceptions *)

(** One read of the singleton, named by the path of keys. *)
Inductive event : Type :=
| Lookup (path : list string).

Record Outcome (A : Type) : Type := {
  final : World;
  trace : list event;
  outcome : result A
}.
Arguments final {A} o.
Arguments trace {A} o.
Arguments outcome {A} o.

Definition M (A : Type) : Type := World -> Outcome A.

Definition ret {A} (a : A) : M A :=
  fun w => {| final := w; trace := []; outcome := Ok a |}.

Definition raise {A} (e : exn) : M A :=
  fun w => {| final := w; trace := []; outcome := Raise e |}.

Definition bind {A B} (m : M A) (f : A -> M B) : M B :=
  fun w =>
    let o := m w in
    match outcome o with
    | Raise e => {| final := final o; trace := trace o; outcome := Raise e |}
    | Ok a =>
        let o' := f a (final o) in
        {| final := final o'; trace := trace o ++ trace o'; outcome := outcome o' |}
    end.

Notation "x <- c1 ;; c2" := (bind c1 (fun x => c2))
  (at level 100, c1 at next level, right associativity).
Notation "c1 ;; c2" := (bind c1 (fun _ => c2))
  (at level 100, right associativity).

Definition get : M World :=
  fun w => {| final := w; trace := []; outcome := Ok w |}.

(** Assignment to the store.  None of the six functions below uses it; it is
    what a collaborator could do. *)
Definition put (w' : World) : M unit :=
  fun _ => {| final := w'; trace := []; outcome := Ok tt |}.

Definition log (e : event) : M unit :=
  fun w => {| final := w; trace := [e]; outcome := Ok tt |}.

(** [try: m  except E: handler], where [catches] recognises [E]. *)
Definition try_except {A} (m : M A) (catches : exn -> bool) (handler : M A) : M A :=
  fun w =>
    let o := m w in
    match outcome o with
    | Ok _ => o
    | Raise e =>
        if catches e then
          let o' := handler (final o) in
          {| final := final o'; trace := trace o ++ trace o'; outcome := outcome o' |}
        else o
    end.

Definition is_IndexError (e : exn) : bool :=
  match e with IndexError => true | _ => false end.

Definition of_option {A} (o : option A) (e : exn) : M A :=
  match o with Some a => ret a | None => raise e end.

(** [a and b] on booleans, with Python's short circuit. *)
Definition and_then (a b : M bool) : M bool :=
  x <- a ;; if x then b else ret false.
Infix "&&&" := and_then (at level 40, left associativity).

(** The conditional expression [x if c else y]. *)
Definition if_else {A} (x : M A) (c : M bool) (y : M A) : M A :=
  b <- c ;; if b then x else y.

(** ** Reading the [Parameters] singleton *)

(** [intervention_params[name][key]] as a pure lookup. *)
Definition intervention_value (p : Parameters) (name key : string) : option value :=
  d ← intervention_params p !! name; d !! key.

(** [Parameters.instance().intervention_params[name][key]] *)
Definition intervention_param (name key : string) : M value :=
  log (Lookup ["intervention_params"; name; key]) ;;
  w <- get ;;
  of_option (intervention_value (parameters w) name key) KeyError.

(** [Parameters.instance().carehome_params[key]] *)
Definition carehome_param (key : string) : M value :=
  log (Lookup ["carehome_params"; key]) ;;
  w <- get ;;
  of_option (carehome_params (parameters w) !! key) KeyError.

(** [Parameters.instance().place_params] *)
Definition place_params_of : M (gmap string value) :=
  log (Lookup ["place_params"]) ;;
  w <- get ;;
  ret (place_params (parameters w)).

(** [Parameters.instance().household_transmission] *)
Definition household_transmission_of : M Q :=
  log (Lookup ["household_transmission"]) ;;
  w <- get ;;
  ret (household_transmission (parameters w)).

(** [d[key]] on a dictionary. *)
Definition getitem (d : gmap string value) (key : string) : M value :=
  of_option (d !! key) KeyError.

(** [l[i]] on a Python list: [0 <= i < len l] counts from the front,
    [-len l <= i < 0] from the back, anything else has no element. *)
Definition py_index (l : list Q) (i : Z) : option Q :=
  let n := Z.of_nat (length l) in
  if (0 <=? i)%Z then l !! Z.to_nat i
  else if (- n <=? i)%Z then l !! Z.to_nat (n + i)
  else None.

(** A configured value used as a number.  An intervention or care home
    factor is taken as a number where it is read; Python would let a
    sequence through there and raise its [TypeError] at the first
    multiplication by a float. *)
Definition number (v : value) : M Q :=
  match v with
  | VNum q => ret q
  | VList _ => raise TypeError
  end.

(** [v[i]] on a configured value. *)
Definition item (v : value) (i : Z) : M Q :=
  match v with
  | VNum _ => raise TypeError
  | VList l => of_option (py_index l i) IndexError
  end.

Definition intervention_num (name key : string) : M Q :=
  v <- intervention_param name key ;; number v.

Definition intervention_item (name key : string) (i : Z) : M Q :=
  v <- intervention_param name key ;; item v i.

Definition carehome_num (key : string) : M Q :=
  v <- carehome_param key ;; number v.

(** [a / b] *)
Definition divide (a b : Q) : M Q :=
  if Qeq_bool b 0 then raise ZeroDivisionError else ret (a / b).

(** ** Reading objects *)

Definition person (r : ref) : M Person :=
  w <- get ;; ret (persons w r).

(** [r.microcell] for a person [r] *)
Definition microcell_of (r : ref) : M Microcell :=
  w <- get ;; ret (microcells w (microcell (persons w r))).

Definition place_at (r : ref) : M Place :=
  w <- get ;; ret (places w r).

(** [hasattr(obj, 'a')] *)
Definition hasattr {O} (obj : M O) (a : O -> attr) : M bool :=
  o <- obj ;;
  ret (match a o with Absent => false | _ => true end).

(** [obj.a is not None] *)
Definition is_not_None {O} (obj : M O) (a : O -> attr) : M bool :=
  o <- obj ;;
  match a o with
  | Absent => raise AttributeError
  | PyNone => ret false
  | Val _ => ret true
  end.

(** [obj.a <= time] *)
Definition le_time {O} (obj : M O) (a : O -> attr) (time : Q) : M bool :=
  o <- obj ;;
  match a o with
  | Absent => raise AttributeError
  | PyNone => raise TypeError
  | Val t => ret (Qle_bool t time)
  end.

(** The test that guards distancing, isolation and quarantine, spelled the
    same way at each of its six occurrences:
    [hasattr(obj, 'a') and obj.a is not None and obj.a <= time]. *)
Definition started {O} (obj : M O) (a : O -> attr) (time : Q) : M bool :=
  hasattr obj a &&& is_not_None obj a &&& le_time obj a time.

(** ** Collaborators defined elsewhere in the package *)

Class Collaborators : Type := {
  (** [PersonalInfection.person_inf(infector, time)] *)
  person_inf : ref -> Q -> M Q;
  (** [PersonalInfection.person_susc(infector, infectee, time)] *)
  person_susc : ref -> ref -> Q -> M Q;
  (** [person.is_place_closed(closure_place_type)] *)
  is_place_closed : ref -> value -> M bool
}.

(** ** The closure test

    Spelled the same way in [household_inf] (lines 38-43) and in [place_inf]
    (lines 47-52):
    [hasattr(infector.microcell, 'closure_start_time')
     and infector.is_place_closed(Parameters.instance().intervention_params[
           'place_closure']['closure_place_type'])
     and infector.microcell.closure_start_time <= time].
    Unlike [started] it has no [is not None] test and asks the person. *)
Definition closure_test {C : Collaborators} (infector : ref) (time : Q) : M bool :=
  hasattr (microcell_of infector) closure_start_time
  &&& (closure_place_type <- intervention_param "place_closure" "closure_place_type" ;;
       is_place_closed infector closure_place_type)
  &&& le_time (microcell_of infector) closure_start_time time.

(** ** [household_foi.py] *)

Module HouseholdInfection.
Section WithCollaborators.
Context {C : Collaborators}.

(** The value bound to [closure_inf] in [household_inf]. *)
Definition closure_inf (infector : ref) (time : Q) : M Q :=
  if_else
    (intervention_num "place_closure" "closure_household_infectiousness")
    (closure_test infector time)
    (ret 1).

Definition household_inf (infector : ref) (time : Q) : M Q :=
  closure_inf <- closure_inf infector time ;;
  p <- person_inf infector time ;;
  let household_infectiousness := p * closure_inf in
  ret household_infectiousness.

Definition household_susc (infector infectee : ref) (time : Q) : M Q :=
  household_susceptibility <- person_susc infector infectee time ;;
  distancing <- started (microcell_of infector) distancing_start_time time ;;
  if distancing then
    p <- person infector ;;
    if distancing_enhanced p then
      f <- intervention_num "social_distancing" "distancing_house_enhanced_susc" ;;
      ret (household_susceptibility * f)
    else
      f <- intervention_num "social_distancing" "distancing_house_susc" ;;
      ret (household_susceptibility * f)
  else ret household_susceptibility.

(** The value bound to [isolating] in [household_foi]. *)
Definition isolating (infector : ref) (time : Q) : M Q :=
  if_else
    (intervention_num "case_isolation" "isolation_house_effectiveness")
    (started (person infector) isolation_start_time time)
    (ret 1).

(** The value bound to [quarantine] in [household_foi]. *)
Definition quarantine (infector : ref) (time : Q) : M Q :=
  if_else
    (intervention_num "household_quarantine" "quarantine_house_effectiveness")
    (started (person infector) quarantine_start_time time)
    (ret 1).

(** [1], or [carehome_params["carehome_resident_household_scaling"]] for a
    care home resident. *)
Definition carehome_scale (r : ref) : M Q :=
  p <- person r ;;
  if care_home_resident p
  then carehome_num "carehome_resident_household_scaling"
  else ret 1.

Definition household_foi (infector infectee : ref) (time : Q) : M Q :=
  carehome_scale_inf <- carehome_scale infector ;;
  carehome_scale_susc <- carehome_scale infectee ;;
  let seasonality := 1 in
  isolating <- isolating infector time ;;
  quarantine <- quarantine infector time ;;
  infectiousness <-
    (hi <- household_inf infector time ;;
     ht <- household_transmission_of ;;
     ret (hi * seasonality * ht * carehome_scale_inf * isolating * quarantine)) ;;
  susceptibility <-
    (hs <- household_susc infector infectee time ;;
     ret (hs * carehome_scale_susc)) ;;
  ret (infectiousness * susceptibility).

End WithCollaborators.
End HouseholdInfection.

(** ** [place_foi.py] *)

Module PlaceInfection.
Section WithCollaborators.
Context {C : Collaborators}.

(** The value bound to [num_groups] in [place_inf]: the [try] block with
    its [except IndexError]. *)
Definition num_groups (params : gmap string value) (place_idx : Z) : M Q :=
  try_except
    (v <- getitem params "mean_group_size" ;; item v place_idx)
    is_IndexError
    (ret 1).

Definition place_inf (place infector : ref) (time : Q) : M Q :=
  params <- place_params_of ;;
  transmission <- getitem params "place_transmission" ;;
  pl <- place_at place ;;
  let place_idx := (place_type pl - 1)%Z in
  num_groups <- num_groups params place_idx ;;
  if_else
    (ret 0)
    (closure_test infector time)
    (transmission <- number transmission ;;
     q <- divide transmission num_groups ;;
     p <- person_inf infector time ;;
     ret (q * p)).

Definition place_susc (place infector infectee : ref) (time : Q) : M Q :=
  let place_susc := 1 in
  pl <- place_at place ;;
  let place_idx := (place_type pl - 1)%Z in
  distancing <- started (microcell_of infector) distancing_start_time time ;;
  if distancing then
    p <- person infector ;;
    if distancing_enhanced p then
      f <- intervention_item "social_distancing" "distancing_place_enhanced_susc"
             place_idx ;;
      ret (place_susc * f)
    else
      f <- intervention_item "social_distancing" "distancing_place_susc" place_idx ;;
      ret (place_susc * f)
  else ret place_susc.

(** The value bound to [carehome_scale_susc] in [place_foi]. *)
Definition carehome_scale_susc (place infector infectee : ref) : M Q :=
  pl <- place_at place ;;
  ee <- person infectee ;;
  er <- person infector ;;
  if ((place_type pl =? 5)%Z && (key_worker ee || key_worker er))%bool
  then carehome_num "carehome_worker_group_scaling"
  else ret 1.

(** The value bound to [isolating] in [place_foi]. *)
Definition isolating (infector : ref) (time : Q) : M Q :=
  if_else
    (intervention_num "case_isolation" "isolation_effectiveness")
    (started (person infector) isolation_start_time time)
    (ret 1).

(** The value bound to [quarantine] in [place_foi]. *)
Definition quarantine (place_idx : Z) (infector : ref) (time : Q) : M Q :=
  if_else
    (intervention_item "household_quarantine" "quarantine_place_effectiveness"
       place_idx)
    (started (person infector) quarantine_start_time time)
    (ret 1).

Definition place_foi (place infector infectee : ref) (time : Q) : M Q :=
  carehome_scale_susc <- carehome_scale_susc place infector infectee ;;
  isolating <- isolating infector time ;;
  pl <- place_at place ;;
  let place_idx := (place_type pl - 1)%Z in
  quarantine <- quarantine place_idx infector time ;;
  infectiousness <-
    (pi <- place_inf place infector time ;;
     ret (pi * isolating * quarantine)) ;;
  susceptibility <-
    (ps <- place_susc place infector infectee time ;;
     ret (ps * carehome_scale_susc * quarantine)) ;;
  ret (infectiousness * susceptibility).

End WithCollaborators.
End PlaceInfection.

Import HouseholdInfection PlaceInfection.

(** ** Assigning to objects, as a sweep outside these modules does *)

Definition with_isolation (p : Person) (a : attr) : Person :=
  {| microcell := microcell p;
     care_home_resident := care_home_resident p;
     key_worker := key_worker p;
     distancing_enhanced := distancing_enhanced p;
     isolation_start_time := a;
     quarantine_start_time := quarantine_start_time p |}.

Definition with_quarantine (p : Person) (a : attr) : Person :=
  {| microcell := microcell p;
     care_home_resident := care_home_resident p;
     key_worker := key_worker p;
     distancing_enhanced := distancing_enhanced p;
     isolation_start_time := isolation_start_time p;
     quarantine_start_time := a |}.

Definition with_distancing (m : Microcell) (a : attr) : Microcell :=
  {| closure_start_time := closure_start_time m;
     distancing_start_time := a |}.

(** [w] with person [r] replaced by [p]. *)
Definition set_person (w : World) (r : ref) (p : Person) : World :=
  {| parameters := parameters w;
     persons := fun r' => if Nat.eqb r' r then p else persons w r';
     microcells := microcells w;
     places := places w |}.

(** [w] with microcell [r] replaced by [m]. *)
Definition set_microcell (w : World) (r : ref) (m : Microcell) : World :=
  {| parameters := parameters w;
     persons := persons w;
     microcells := fun r' => if Nat.eqb r' r then m else microcells w r';
     places := places w |}.

(** [w] with the singleton replaced by [p]. *)
Definition set_parameters (w : World) (p : Parameters) : World :=
  {| parameters := p;
     persons := persons w;
     microcells := microcells w;
     places := places w |}.

(** ** Vocabulary of the properties *)

(** A start time that is there, is not [None], and has been reached. *)
Definition active (a : attr) (time : Q) : bool :=
  match a with
  | Val t => Qle_bool t time
  | Absent | PyNone => false
  end.

(** [m], run in [w], leaves the store as it is. *)
Definition pure {A} (m : M A) : Prop :=
  forall w, final (m w) = w.

(** Running [m] a second time, right after itself, gives the same outcome
    (store, trace and result). *)
Definition repeatable {A} (m : M A) : Prop :=
  forall w, m (final (m w)) = m w.

(** [m], run in [w], returns [a] and leaves [w] as it is. *)
Definition returns {A} (m : M A) (w : World) (a : A) : Prop :=
  final (m w) = w /\ outcome (m w) = Ok a.

(** [m], run in [w], raises [e]. *)
Definition raises {A} (m : M A) (w : World) (e : exn) : Prop :=
  outcome (m w) = Raise e.

(** [m], run in [w], leaves [w] as it is, and what it returns, if it
    returns, satisfies [P]. *)
Definition ensures {A} (m : M A) (w : World) (P : A -> Prop) : Prop :=
  final (m w) = w /\
  match outcome (m w) with
  | Ok a => P a
  | Raise _ => True
  end.

(** The collaborators do not assign to the store. *)
Definition pure_collaborators {C : Collaborators} : Prop :=
  (forall i t, pure (person_inf i t)) /\
  (forall i j t, pure (person_susc i j t)) /\
  (forall i v, pure (is_place_closed i v)).

(** The closure test of [household_inf] and [place_inf] comes out false:
    no closure was ever scheduled for the infector's microcell, or the
    person's places are not of a closed type, or closure starts later. *)
Inductive closure_inactive {C : Collaborators} (w : World) (infector : ref)
    (time : Q) : Prop :=
| closure_never_scheduled :
    closure_start_time (microcells w (microcell (persons w infector))) = Absent ->
    closure_inactive w infector time
| closure_not_for_this_person (closure_place_type : value) :
    closure_start_time (microcells w (microcell (persons w infector))) <> Absent ->
    intervention_value (parameters w) "place_closure" "closure_place_type"
      = Some closure_place_type ->
    returns (is_place_closed infector closure_place_type) w false ->
    closure_inactive w infector time
| closure_not_yet (t : Q) (closure_place_type : value) :
    closure_start_time (microcells w (microcell (persons w infector))) = Val t ->
    intervention_value (parameters w) "place_closure" "closure_place_type"
      = Some closure_place_type ->
    returns (is_place_closed infector closure_place_type) w true ->
    time < t ->
    closure_inactive w infector time.

(** Every configured number is non-negative. *)
Definition nonneg_value (v : value) : Prop :=
  match v with
  | VNum q => 0 <= q
  | VList l => Forall (Qle 0) l
  end.

Definition params_nonneg (p : Parameters) : Prop :=
  0 <= household_transmission p /\
  map_Forall (fun _ v => nonneg_value v) (place_params p) /\
  map_Forall (fun _ v => nonneg_value v) (carehome_params p) /\
  map_Forall (fun _ d => map_Forall (fun _ v => nonneg_value v) d)
    (intervention_params p).

(** Personal infectiousness and susceptibility are never negative. *)
Definition collaborators_nonneg {C : Collaborators} : Prop :=
  (forall i t w v, outcome (person_inf i t w) = Ok v -> 0 <= v) /\
  (forall i j t w v, outcome (person_susc i j t w) = Ok v -> 0 <= v).

(** The three modifiers that a sweep switches on by setting a start time. *)
Inductive modifier : Type :=
| Isolation
| Quarantine
| Distancing.

(** Where the start time of a modifier is kept, for a given infector. *)
Definition start_time (m : modifier) (w : World) (infector : ref) : attr :=
  match m with
  | Isolation => isolation_start_time (persons w infector)
  | Quarantine => quarantine_start_time (persons w infector)
  | Distancing =>
      distancing_start_time (microcells w (microcell (persons w infector)))
  end.

(** The store after the modifier's start time has been set to [t]; nothing
    else changes. *)
Definition activate (m : modifier) (infector : ref) (t : Q) (w : World) : World :=
  match m with
  | Isolation =>
      set_person w infector (with_isolation (persons w infector) (Val t))
  | Quarantine =>
      set_person w infector (with_quarantine (persons w infector) (Val t))
  | Distancing =>
      set_microcell w (microcell (persons w infector))
        (with_distancing (microcells w (microcell (persons w infector))) (Val t))
  end.

Definition scalar (v : option value) : option Q :=
  match v with
  | Some (VNum q) => Some q
  | _ => None
  end.

Definition entry (v : option value) (i : Z) : option Q :=
  match v with
  | Some (VList l) => py_index l i
  | _ => None
  end.

(** The configured factor that a modifier contributes to [household_foi]. *)
Definition household_factor (m : modifier) (w : World) (infector : ref) : option Q :=
  match m with
  | Isolation =>
      scalar (intervention_value (parameters w) "case_isolation"
                "isolation_house_effectiveness")
  | Quarantine =>
      scalar (intervention_value (parameters w) "household_quarantine"
                "quarantine_house_effectiveness")
  | Distancing =>
      scalar (intervention_value (parameters w) "social_distancing"
                (if distancing_enhanced (persons w infector)
                 then "distancing_house_enhanced_susc"
                 else "distancing_house_susc"))
  end.

(** The configured factor that a modifier contributes to [place_foi]. *)
Definition place_factor (m : modifier) (w : World) (place infector : ref) : option Q :=
  match m with
  | Isolation =>
      scalar (intervention_value (parameters w) "case_isolation"
                "isolation_effectiveness")
  | Quarantine =>
      entry (intervention_value (parameters w) "household_quarantine"
               "quarantine_place_effectiveness")
        (place_type (places w place) - 1)
  | Distancing =>
      entry (intervention_value (parameters w) "social_distancing"
               (if distancing_enhanced (persons w infector)
                then "distancing_place_enhanced_susc"
                else "distancing_place_susc"))
        (place_type (places w place) - 1)
  end.

(** The collaborators answer in [w'] as they do in [w]. *)
Definition collaborators_agree {C : Collaborators} (w w' : World) : Prop :=
  (forall i t, outcome (person_inf i t w') = outcome (person_inf i t w)) /\
  (forall i j t, outcome (person_susc i j t w') = outcome (person_susc i j t w)) /\
  (forall i v, outcome (is_place_closed i v w') = outcome (is_place_closed i v w)).

(** [w'] is [w] up to the start times of isolation, quarantine and
    distancing. *)
Record same_but_start_times (w w' : World) : Prop := {
  same_parameters : parameters w' = parameters w;
  same_places : forall r, places w' r = places w r;
  same_microcell : forall r, microcell (persons w' r) = microcell (persons w r);
  same_care_home_resident :
    forall r, care_home_resident (persons w' r) = care_home_resident (persons w r);
  same_key_worker :
    forall r, key_worker (persons w' r) = key_worker (persons w r);
  same_distancing_enhanced :
    forall r, distancing_enhanced (persons w' r) = distancing_enhanced (persons w r);
  same_closure_start_time :
    forall r, closure_start_time (microcells w' r)
              = closure_start_time (microcells w r)
}.

(** How one start time moves from [w] to [w']: it is in force in both or in
    neither, or it comes into force with a configured factor in [0,1]. *)
Inductive start_step (time : Q) (a a' : attr) (factor : option Q) : Prop :=
| start_unchanged :
    active a' time = active a time -> start_step time a a' factor
| start_activated (f : Q) :
    active a time = false -> active a' time = true ->
    factor = Some f -> 0 <= f <= 1 ->
    start_step time a a' factor.

(** [m] has the same result in [w'] as in [w]. *)
Definition same_result {A} (w w' : World) (m : M A) : Prop :=
  outcome (m w') = outcome (m w).

(** Collaborators for worked examples: constant answers. *)
Definition constant_collaborators (inf susc : Q) (closed : bool) : Collaborators :=
  {| person_inf := fun _ _ => ret inf;
     person_susc := fun _ _ _ => ret susc;
     is_place_closed := fun _ _ => ret closed |}.

(** ** A small configured world for worked examples

    The per-place-type lists have four entries (primary school, secondary
    school, sixth form, workplace); place types 5 (care home) and 6 (outdoor
    space) are not in them. *)

Definition example_parameters : Parameters :=
  {| household_transmission := 2 # 10;
     place_params :=
       {[ "place_transmission" := VNum 1;
          "mean_group_size" := VList [50; 40; 30; 20] ]};
     carehome_params :=
       {[ "carehome_resident_household_scaling" := VNum (1 # 2);
          "carehome_worker_group_scaling" := VNum (1 # 2) ]};
     intervention_params :=
       {[ "place_closure" :=
            {[ "closure_place_type" := VList [1; 2; 3];
               "closure_household_infectiousness" := VNum (3 # 2) ]};
          "social_distancing" :=
            {[ "distancing_house_susc" := VNum (3 # 4);
               "distancing_house_enhanced_susc" := VNum (1 # 2);
               "distancing_place_susc" := VList [1#2; 1#2; 1#2; 1#2];
               "distancing_place_enhanced_susc" :=
                 VList [1#4; 1#4; 1#4; 1#4] ]};
          "case_isolation" :=
            {[ "isolation_house_effectiveness" := VNum (1 # 2);
               "isolation_effectiveness" := VNum (1 # 4) ]};
          "household_quarantine" :=
            {[ "quarantine_house_effectiveness" := VNum (1 # 2);
               "quarantine_place_effectiveness" :=
                 VList [1#2; 1#2; 1#2; 1#2] ]} ]} |}.

(** The same configuration, with group size 0 for the first place type. *)
Definition zero_size_parameters : Parameters :=
  {| household_transmission := household_transmission example_parameters;
     place_params :=
       {[ "place_transmission" := VNum 1;
          "mean_group_size" := VList [0; 40; 30; 20] ]};
     carehome_params := carehome_params example_parameters;
     intervention_params := intervention_params example_parameters |}.

(** A person in microcell 0 under no intervention. *)
Definition example_person : Person :=
  {| microcell := 0%nat;
     care_home_resident := false;
     key_worker := false;
     distancing_enhanced := false;
     isolation_start_time := Absent;
     quarantine_start_time := Absent |}.

(** Every person is [p], every microcell [m], every place of type [ty]. *)
Definition example_world (p : Person) (m : Microcell) (ty : Z) : World :=
  {| parameters := example_parameters;
     persons := fun _ => p;
     microcells := fun _ => m;
     places := fun _ => {| place_type := ty |} |}.

(** Distancing was started at time 0. *)
Definition distancing_microcell : Microcell :=
  {| closure_start_time := Absent; distancing_start_time := Val 0 |}.

(** No microcell-level intervention has been scheduled. *)
Definition quiet_microcell : Microcell :=
  {| closure_start_time := Absent; distancing_start_time := Absent |}.

(** Closure was started at time 0. *)
Definition closing_microcell : Microcell :=
  {| closure_start_time := Val 0; distancing_start_time := Absent |}.

(** A configuration that holds nothing but the transmission rates: no
    intervention and no care home parameter. *)
Definition bare_parameters : Parameters :=
  {| household_transmission := 2 # 10;
     place_params :=
       {[ "place_transmission" := VNum 1;
          "mean_group_size" := VList [50; 40; 30; 20] ]};
     carehome_params := ∅;
     intervention_params := ∅ |}.

(** Closure was scheduled, with [None] for its start. *)
Definition unset_closure_microcell : Microcell :=
  {| closure_start_time := PyNone; distancing_start_time := Absent |}.

(** A care home resident who is also a key worker. *)
Definition care_home_person : Person :=
  {| microcell := 0%nat;
     care_home_resident := true;
     key_worker := true;
     distancing_enhanced := false;
     isolation_start_time := Absent;
     quarantine_start_time := Absent |}.

(** * Properties *)

(** ** Laws of the monad *)

Section MonadLaws.
Context {A B : Type}.

Lemma pure_ret (a : A) : pure (ret a).
Proof. intros w; reflexivity. Qed.

Lemma pure_raise (e : exn) : pure (@raise A e).
Proof. intros w; reflexivity. Qed.

Lemma pure_bind (m : M A) (f : A -> M B) :
  pure m -> (forall a, pure (f a)) -> pure (x <- m ;; f x).
Proof.
  intros Hm Hf w. unfold bind.
  destruct (outcome (m w)) as [a|e] eqn:E; cbn.
  - rewrite Hm. apply Hf.
  - apply Hm.
Qed.

Lemma pure_of_option (o : option A) (e : exn) : pure (of_option o e).
Proof. destruct o; intros w; reflexivity. Qed.

Lemma pure_try_except (m : M A) (c : exn -> bool) (h : M A) :
  pure m -> pure h -> pure (try_except m c h).
Proof.
  intros Hm Hh w. unfold try_except.
  destruct (outcome (m w)) as [a|e]; [apply Hm|].
  destruct (c e); cbn; [rewrite Hm; apply Hh | apply Hm].
Qed.

Lemma pure_repeatable (m : M A) : pure m -> repeatable m.
Proof. intros Hm w. now rewrite Hm. Qed.

Lemma returns_ret (a : A) w : returns (ret a) w a.
Proof. split; reflexivity. Qed.

Lemma returns_bind (m : M A) (f : A -> M B) w a b :
  returns m w a -> returns (f a) w b -> returns (x <- m ;; f x) w b.
Proof.
  intros [Hw Ha] [Hw' Hb]. unfold returns, bind.
  rewrite Ha; cbn. rewrite Hw. auto.
Qed.

Lemma raises_bind_l (m : M A) (f : A -> M B) w e :
  raises m w e -> raises (x <- m ;; f x) w e.
Proof. unfold raises, bind. intros ->. reflexivity. Qed.

Lemma raises_bind_r (m : M A) (f : A -> M B) w a e :
  returns m w a -> raises (f a) w e -> raises (x <- m ;; f x) w e.
Proof.
  intros [Hw Ha] He. unfold raises, bind.
  rewrite Ha; cbn. now rewrite Hw.
Qed.

Lemma ensures_bind (m : M A) (f : A -> M B) w (P : A -> Prop) (Q : B -> Prop) :
  ensures m w P -> (forall a, P a -> ensures (f a) w Q) ->
  ensures (x <- m ;; f x) w Q.
Proof.
  intros [Hw HP] Hf. unfold ensures, bind.
  destruct (outcome (m w)) as [a|e]; cbn; [|auto].
  rewrite Hw. exact (Hf a HP).
Qed.

Lemma ensures_weaken (m : M A) w (P P' : A -> Prop) :
  ensures m w P -> (forall a, P a -> P' a) -> ensures m w P'.
Proof.
  intros [Hw HP] HPP'. split; [exact Hw|].
  destruct (outcome (m w)); auto.
Qed.

Lemma ensures_ret (a : A) w (P : A -> Prop) : P a -> ensures (ret a) w P.
Proof. intros HP; split; [reflexivity | exact HP]. Qed.

Lemma ensures_raise (e : exn) w (P : A -> Prop) : ensures (raise e) w P.
Proof. split; [reflexivity | exact I]. Qed.

Lemma ensures_pure (m : M A) w : pure m -> ensures m w (fun _ => True).
Proof. intros Hm; split; [apply Hm|]. destruct (outcome (m w)); exact I. Qed.

Lemma ensures_returns (m : M A) w (P : A -> Prop) a :
  ensures m w P -> outcome (m w) = Ok a -> P a.
Proof. intros [_ HP] E. now rewrite E in HP. Qed.

End MonadLaws.

(** ** What assigns to the store, and what does not *)

Create HintDb purity discriminated.

#[local] Hint Resolve pure_ret pure_raise pure_bind pure_of_option
  pure_try_except : purity.
#[local] Hint Extern 2 (pure (if ?b then _ else _)) => destruct b : purity.
#[local] Hint Extern 2 (pure (match ?x with _ => _ end)) => destruct x : purity.

Lemma pure_get : pure get.
Proof. intros w; reflexivity. Qed.

Lemma pure_log (e : event) : pure (log e).
Proof. intros w; reflexivity. Qed.

#[local] Hint Resolve pure_get pure_log : purity.

Ltac purity := intros; unfold_head; eauto 20 with purity
with unfold_head :=
  match goal with
  | |- pure ?m => let h := head_of m in unfold h
  end
with head_of m :=
  match m with
  | ?f _ => head_of f
  | _ => m
  end.

Section PureReads.
Context {O : Type}.

Lemma pure_intervention_param name key : pure (intervention_param name key).
Proof. purity. Qed.

Lemma pure_carehome_param key : pure (carehome_param key).
Proof. purity. Qed.

Lemma pure_place_params_of : pure place_params_of.
Proof. purity. Qed.

Lemma pure_household_transmission_of : pure household_transmission_of.
Proof. purity. Qed.

Lemma pure_getitem d key : pure (getitem d key).
Proof. purity. Qed.

Lemma pure_number v : pure (number v).
Proof. purity. Qed.

Lemma pure_item v i : pure (item v i).
Proof. purity. Qed.

Lemma pure_divide a b : pure (divide a b).
Proof. purity. Qed.

Lemma pure_person r : pure (person r).
Proof. purity. Qed.

Lemma pure_microcell_of r : pure (microcell_of r).
Proof. purity. Qed.

Lemma pure_place_at r : pure (place_at r).
Proof. purity. Qed.

Lemma pure_and_then a b : pure a -> pure b -> pure (a &&& b).
Proof. purity. Qed.

Lemma pure_if_else {A} (x : M A) c y :
  pure x -> pure c -> pure y -> pure (if_else x c y).
Proof. purity. Qed.

Lemma pure_hasattr (obj : M O) a : pure obj -> pure (hasattr obj a).
Proof. purity. Qed.

Lemma pure_is_not_None (obj : M O) a : pure obj -> pure (is_not_None obj a).
Proof. purity. Qed.

Lemma pure_le_time (obj : M O) a time : pure obj -> pure (le_time obj a time).
Proof. purity. Qed.

End PureReads.

#[local] Hint Resolve pure_intervention_param pure_carehome_param
  pure_place_params_of pure_household_transmission_of pure_getitem pure_number
  pure_item pure_divide pure_person pure_microcell_of pure_place_at
  pure_and_then pure_if_else pure_hasattr pure_is_not_None pure_le_time
  : purity.

Lemma pure_started {O} (obj : M O) a time : pure obj -> pure (started obj a time).
Proof. purity. Qed.

Lemma pure_intervention_num name key : pure (intervention_num name key).
Proof. purity. Qed.

Lemma pure_intervention_item name key i : pure (intervention_item name key i).
Proof. purity. Qed.

Lemma pure_carehome_num key : pure (carehome_num key).
Proof. purity. Qed.

#[local] Hint Resolve pure_started pure_intervention_num pure_intervention_item
  pure_carehome_num : purity.

Section PureFunctions.
Context {C : Collaborators}.
Hypothesis collaborators_pure : pure_collaborators.

Let pure_person_inf i t : pure (person_inf i t).
Proof. apply collaborators_pure. Qed.
Let pure_person_susc i j t : pure (person_susc i j t).
Proof. apply collaborators_pure. Qed.
Let pure_is_place_closed i v : pure (is_place_closed i v).
Proof. apply collaborators_pure. Qed.

#[local] Hint Resolve pure_person_inf pure_person_susc pure_is_place_closed
  : purity.

Lemma pure_closure_test infector time : pure (closure_test infector time).
Proof. purity. Qed.
#[local] Hint Resolve pure_closure_test : purity.

Lemma pure_household_inf infector time : pure (household_inf infector time).
Proof. unfold household_inf, closure_inf. eauto 20 with purity. Qed.

Lemma pure_household_susc infector infectee time :
  pure (household_susc infector infectee time).
Proof. purity. Qed.

#[local] Hint Resolve pure_household_inf pure_household_susc : purity.

Lemma pure_household_foi infector infectee time :
  pure (household_foi infector infectee time).
Proof.
  unfold household_foi, HouseholdInfection.isolating,
    HouseholdInfection.quarantine, carehome_scale.
  eauto 30 with purity.
Qed.

Lemma pure_place_inf place infector time : pure (place_inf place infector time).
Proof. unfold place_inf, num_groups. eauto 30 with purity. Qed.

Lemma pure_place_susc place infector infectee time :
  pure (place_susc place infector infectee time).
Proof. purity. Qed.

#[local] Hint Resolve pure_place_inf pure_place_susc : purity.

Lemma pure_place_foi place infector infectee time :
  pure (place_foi place infector infectee time).
Proof.
  unfold place_foi, PlaceInfection.isolating, PlaceInfection.quarantine,
    carehome_scale_susc.
  eauto 30 with purity.
Qed.

End PureFunctions.

(** ** Evaluating the guards *)

Lemma ret_bind {A B} (a : A) (f : A -> M B) w : (x <- ret a ;; f x) w = f a w.
Proof. unfold bind, ret; cbn. destruct (f a w); reflexivity. Qed.

Lemma get_bind {B} (f : World -> M B) w : (x <- get ;; f x) w = f w w.
Proof. unfold bind, get; cbn. destruct (f w w); reflexivity. Qed.

Lemma bind_run {A B} (m : M A) (f : A -> M B) w w1 tr a :
  m w = {| final := w1; trace := tr; outcome := Ok a |} ->
  (x <- m ;; f x) w
  = {| final := final (f a w1);
       trace := tr ++ trace (f a w1);
       outcome := outcome (f a w1) |}.
Proof. unfold bind. intros ->. reflexivity. Qed.

Lemma bind_ret_run {A B} (m : M A) (f : A -> M B) w a :
  m w = ret a w -> (x <- m ;; f x) w = f a w.
Proof. intros E. rewrite (bind_run _ _ _ _ _ _ E). destruct (f a w); reflexivity. Qed.

Lemma bind_raise_run {A B} (m : M A) (f : A -> M B) w w1 tr e :
  m w = {| final := w1; trace := tr; outcome := Raise e |} ->
  (x <- m ;; f x) w = {| final := w1; trace := tr; outcome := Raise e |}.
Proof. unfold bind. intros ->. reflexivity. Qed.

Lemma bind_ext_run {A B} (m : M A) (f g : A -> M B) w :
  (forall a, outcome (m w) = Ok a -> f a (final (m w)) = g a (final (m w))) ->
  (x <- m ;; f x) w = (x <- m ;; g x) w.
Proof.
  intros E. unfold bind.
  destruct (outcome (m w)) as [a|e]; [|reflexivity].
  now rewrite (E a eq_refl).
Qed.

Lemma and_then_true (a b : M bool) w : a w = ret true w -> (a &&& b) w = b w.
Proof. intros E. unfold and_then. now rewrite (bind_ret_run _ _ _ _ E). Qed.

Lemma and_then_false (a b : M bool) w :
  a w = ret false w -> (a &&& b) w = ret false w.
Proof. intros E. unfold and_then. now rewrite (bind_ret_run _ _ _ _ E). Qed.

Lemma person_run r w : person r w = ret (persons w r) w.
Proof. unfold person. now rewrite get_bind. Qed.

Lemma microcell_of_run r w :
  microcell_of r w = ret (microcells w (microcell (persons w r))) w.
Proof. unfold microcell_of. now rewrite get_bind. Qed.

Lemma place_at_run r w : place_at r w = ret (places w r) w.
Proof. unfold place_at. now rewrite get_bind. Qed.

Lemma hasattr_run {O} (obj : M O) a o w :
  obj w = ret o w ->
  hasattr obj a w = ret (match a o with Absent => false | _ => true end) w.
Proof. intros E. unfold hasattr. now rewrite (bind_ret_run _ _ _ _ E). Qed.

Lemma le_time_run {O} (obj : M O) a o t time w :
  obj w = ret o w -> a o = Val t ->
  le_time obj a time w = ret (Qle_bool t time) w.
Proof.
  intros E V. unfold le_time. rewrite (bind_ret_run _ _ _ _ E). now rewrite V.
Qed.

Lemma started_person infector a time w :
  started (person infector) a time w = ret (active (a (persons w infector)) time) w.
Proof.
  unfold started, and_then, hasattr, is_not_None, le_time, person, bind; cbn.
  destruct (a (persons w infector)) eqn:E; cbn; rewrite ?E; cbn; rewrite ?E;
    reflexivity.
Qed.

Lemma started_microcell infector a time w :
  started (microcell_of infector) a time w
  = ret (active (a (microcells w (microcell (persons w infector)))) time) w.
Proof.
  unfold started, and_then, hasattr, is_not_None, le_time, microcell_of, bind; cbn.
  destruct (a (microcells w (microcell (persons w infector)))) eqn:E; cbn;
    rewrite ?E; cbn; rewrite ?E; reflexivity.
Qed.

Lemma if_else_started_person {A} (x y : M A) infector a time w :
  if_else x (started (person infector) a time) y w
  = if active (a (persons w infector)) time then x w else y w.
Proof.
  unfold if_else, bind. rewrite started_person; cbn.
  destruct (active _ _); [destruct (x w) | destruct (y w)]; reflexivity.
Qed.

Lemma intervention_param_run name key w :
  intervention_param name key w
  = {| final := w;
       trace := [Lookup ["intervention_params"; name; key]];
       outcome := match intervention_value (parameters w) name key with
                  | Some v => Ok v
                  | None => Raise KeyError
                  end |}.
Proof.
  unfold intervention_param, bind; cbn.
  destruct (intervention_value _ _ _); reflexivity.
Qed.

Lemma intervention_num_run name key w :
  intervention_num name key w
  = {| final := w;
       trace := [Lookup ["intervention_params"; name; key]];
       outcome := match intervention_value (parameters w) name key with
                  | Some (VNum q) => Ok q
                  | Some (VList _) => Raise TypeError
                  | None => Raise KeyError
                  end |}.
Proof.
  unfold intervention_num, bind. rewrite intervention_param_run; cbn.
  destruct (intervention_value _ _ _) as [[q|l]|]; reflexivity.
Qed.

Lemma intervention_item_run name key i w :
  intervention_item name key i w
  = {| final := w;
       trace := [Lookup ["intervention_params"; name; key]];
       outcome := match intervention_value (parameters w) name key with
                  | Some (VList l) =>
                      match py_index l i with
                      | Some q => Ok q
                      | None => Raise IndexError
                      end
                  | Some (VNum _) => Raise TypeError
                  | None => Raise KeyError
                  end |}.
Proof.
  unfold intervention_item, bind. rewrite intervention_param_run; cbn.
  destruct (intervention_value _ _ _) as [[q|l]|]; cbn; try reflexivity.
  destruct (py_index l i); reflexivity.
Qed.

(** ** Purity (C9) *)

(** C9.  None of [household_inf], [household_susc], [household_foi],
    [place_inf], [place_susc], [place_foi] assigns to the store (the state of
    persons, places, microcells and [Parameters]), provided the three
    collaborators they call do not; and a second call with the same
    arguments, made right after the first, has the same outcome. *)
Theorem C9_pure_and_repeatable {C : Collaborators} :
  pure_collaborators ->
  forall place infector infectee time,
    (pure (household_inf infector time)
     /\ repeatable (household_inf infector time)) /\
    (pure (household_susc infector infectee time)
     /\ repeatable (household_susc infector infectee time)) /\
    (pure (household_foi infector infectee time)
     /\ repeatable (household_foi infector infectee time)) /\
    (pure (place_inf place infector time)
     /\ repeatable (place_inf place infector time)) /\
    (pure (place_susc place infector infectee time)
     /\ repeatable (place_susc place infector infectee time)) /\
    (pure (place_foi place infector infectee time)
     /\ repeatable (place_foi place infector infectee time)).
Proof.
  intros HC place infector infectee time.
  repeat split; try apply pure_repeatable;
    auto using pure_household_inf, pure_household_susc, pure_household_foi,
      pure_place_inf, pure_place_susc, pure_place_foi.
Qed.

Lemma C9_witness :
  @pure_collaborators (constant_collaborators 1 1 false) /\
  pure (household_foi (C := constant_collaborators 1 1 false) 0%nat 1%nat 1) /\
  repeatable (place_foi (C := constant_collaborators 1 1 false) 0%nat 0%nat 1%nat 1).
Proof.
  assert (P : @pure_collaborators (constant_collaborators 1 1 false))
    by (repeat split).
  split; [exact P|].
  split; apply (C9_pure_and_repeatable (C := constant_collaborators 1 1 false) P
                  0%nat 0%nat 1%nat 1).
Defined.

(** ** The gates (C1) *)

Lemma if_else_started_microcell {A} (x y : M A) infector a time w :
  if_else x (started (microcell_of infector) a time) y w
  = if active (a (microcells w (microcell (persons w infector)))) time
    then x w else y w.
Proof.
  unfold if_else, bind. rewrite started_microcell; cbn.
  destruct (active _ _); [destruct (x w) | destruct (y w)]; reflexivity.
Qed.

Section ClosureGate.
Context {C : Collaborators}.
Variables (w : World) (infector : ref) (time : Q).

Let start := closure_start_time (microcells w (microcell (persons w infector))).

Lemma closure_test_absent :
  start = Absent -> closure_test infector time w = ret false w.
Proof.
  subst start; intros E. unfold closure_test.
  apply and_then_false, and_then_false.
  rewrite (hasattr_run _ _ _ _ (microcell_of_run infector w)).
  now rewrite E.
Qed.

Lemma closure_test_run t closure_place_type closed :
  start = Val t ->
  intervention_value (parameters w) "place_closure" "closure_place_type"
    = Some closure_place_type ->
  returns (is_place_closed infector closure_place_type) w closed ->
  closure_test infector time w
  = {| final := w;
       trace := Lookup ["intervention_params"; "place_closure"; "closure_place_type"]
                :: trace (is_place_closed infector closure_place_type w);
       outcome := Ok (closed && Qle_bool t time)%bool |}.
Proof.
  subst start; intros E V [Hw Hc]. unfold closure_test.
  unfold and_then at 1.
  erewrite bind_run; cycle 1.
  { rewrite and_then_true.
    - erewrite bind_run by (rewrite intervention_param_run, V; reflexivity).
      rewrite Hw, Hc. reflexivity.
    - rewrite (hasattr_run _ _ _ _ (microcell_of_run infector w)).
      now rewrite E. }
  destruct closed; cbn [andb].
  - rewrite (le_time_run _ _ _ _ _ _ (microcell_of_run infector w) E).
    cbn. now rewrite app_nil_r.
  - cbn. now rewrite app_nil_r.
Qed.

End ClosureGate.

Lemma household_susc_run {C : Collaborators} infector infectee time w :
  final (person_susc infector infectee time w) = w ->
  household_susc infector infectee time w
  = (s <- person_susc infector infectee time ;;
     if active (distancing_start_time (microcells w (microcell (persons w infector))))
          time
     then f <- intervention_num "social_distancing"
                 (if distancing_enhanced (persons w infector)
                  then "distancing_house_enhanced_susc"
                  else "distancing_house_susc") ;;
          ret (s * f)
     else ret s) w.
Proof.
  intros Hw. unfold household_susc.
  apply bind_ext_run. intros s _. rewrite Hw.
  rewrite (bind_ret_run _ _ _ _ (started_microcell infector _ time w)).
  destruct (active _ _); [|reflexivity].
  rewrite (bind_ret_run _ _ _ _ (person_run infector w)).
  destruct (distancing_enhanced _); reflexivity.
Qed.

Lemma place_susc_run {C : Collaborators} place infector infectee time w :
  place_susc place infector infectee time w
  = if active (distancing_start_time (microcells w (microcell (persons w infector))))
         time
    then (f <- intervention_item "social_distancing"
                 (if distancing_enhanced (persons w infector)
                  then "distancing_place_enhanced_susc"
                  else "distancing_place_susc")
                 (place_type (places w place) - 1) ;;
          ret (1 * f)) w
    else ret 1 w.
Proof.
  unfold place_susc.
  rewrite (bind_ret_run _ _ _ _ (place_at_run place w)).
  rewrite (bind_ret_run _ _ _ _ (started_microcell infector _ time w)).
  destruct (active _ _); [|reflexivity].
  rewrite (bind_ret_run _ _ _ _ (person_run infector w)).
  destruct (distancing_enhanced _); reflexivity.
Qed.

Lemma closure_inf_absent {C : Collaborators} infector time w :
  closure_start_time (microcells w (microcell (persons w infector))) = Absent ->
  closure_inf infector time w = ret 1 w.
Proof.
  intros E. unfold closure_inf, if_else.
  now rewrite (bind_ret_run _ _ _ _ (closure_test_absent w infector time E)).
Qed.

Lemma closure_inf_run {C : Collaborators} infector time w t closure_place_type closed :
  closure_start_time (microcells w (microcell (persons w infector))) = Val t ->
  intervention_value (parameters w) "place_closure" "closure_place_type"
    = Some closure_place_type ->
  returns (is_place_closed infector closure_place_type) w closed ->
  closure_inf infector time w
  = {| final := w;
       trace :=
         Lookup ["intervention_params"; "place_closure"; "closure_place_type"]
         :: trace (is_place_closed infector closure_place_type w)
         ++ (if (closed && Qle_bool t time)%bool
             then [Lookup ["intervention_params"; "place_closure";
                           "closure_household_infectiousness"]]
             else []);
       outcome :=
         if (closed && Qle_bool t time)%bool
         then outcome (intervention_num "place_closure"
                         "closure_household_infectiousness" w)
         else Ok 1 |}.
Proof.
  intros E V R. unfold closure_inf, if_else.
  rewrite (bind_run _ _ _ _ _ _ (closure_test_run w infector time _ _ _ E V R)).
  destruct (closed && Qle_bool t time)%bool.
  - rewrite intervention_num_run. reflexivity.
  - reflexivity.
Qed.

(** C1 (as amended).  The isolation and quarantine factors of
    [household_foi] and [place_foi] and the distancing factors of
    [household_susc] and [place_susc] are read from [Parameters] exactly when
    the start time is there, is not [None] and is at most [time]; otherwise
    the factor is 1 and nothing is read.  The closure factor of
    [household_inf] is different: with no [closure_start_time] attribute
    nothing is read and the factor is 1; with a start time [t],
    [closure_place_type] is always read and handed to [is_place_closed], and
    [closure_household_infectiousness] is read exactly when [is_place_closed]
    answers true and [t <= time].  The test itself, which [place_inf] shares,
    comes out true in exactly that case. *)
Theorem C1_gates {C : Collaborators} (w : World) (place infector infectee : ref)
    (time : Q) :
  let me := persons w infector in
  let cell := microcells w (microcell me) in
  let place_idx := (place_type (places w place) - 1)%Z in
  HouseholdInfection.isolating infector time w
    = (if active (isolation_start_time me) time
       then intervention_num "case_isolation" "isolation_house_effectiveness" w
       else ret 1 w) /\
  HouseholdInfection.quarantine infector time w
    = (if active (quarantine_start_time me) time
       then intervention_num "household_quarantine" "quarantine_house_effectiveness" w
       else ret 1 w) /\
  PlaceInfection.isolating infector time w
    = (if active (isolation_start_time me) time
       then intervention_num "case_isolation" "isolation_effectiveness" w
       else ret 1 w) /\
  PlaceInfection.quarantine place_idx infector time w
    = (if active (quarantine_start_time me) time
       then intervention_item "household_quarantine" "quarantine_place_effectiveness"
              place_idx w
       else ret 1 w) /\
  (final (person_susc infector infectee time w) = w ->
   household_susc infector infectee time w
   = (s <- person_susc infector infectee time ;;
      if active (distancing_start_time cell) time
      then f <- intervention_num "social_distancing"
                  (if distancing_enhanced me
                   then "distancing_house_enhanced_susc"
                   else "distancing_house_susc") ;;
           ret (s * f)
      else ret s) w) /\
  place_susc place infector infectee time w
    = (if active (distancing_start_time cell) time
       then (f <- intervention_item "social_distancing"
                    (if distancing_enhanced me
                     then "distancing_place_enhanced_susc"
                     else "distancing_place_susc")
                    place_idx ;;
             ret (1 * f)) w
       else ret 1 w) /\
  (closure_start_time cell = Absent ->
   closure_test infector time w = ret false w /\
   closure_inf infector time w = ret 1 w) /\
  (forall t closure_place_type closed,
     closure_start_time cell = Val t ->
     intervention_value (parameters w) "place_closure" "closure_place_type"
       = Some closure_place_type ->
     returns (is_place_closed infector closure_place_type) w closed ->
     closure_test infector time w
     = {| final := w;
          trace :=
            Lookup ["intervention_params"; "place_closure"; "closure_place_type"]
            :: trace (is_place_closed infector closure_place_type w);
          outcome := Ok (closed && Qle_bool t time)%bool |} /\
     closure_inf infector time w
     = {| final := w;
          trace :=
            Lookup ["intervention_params"; "place_closure"; "closure_place_type"]
            :: trace (is_place_closed infector closure_place_type w)
            ++ (if (closed && Qle_bool t time)%bool
                then [Lookup ["intervention_params"; "place_closure";
                              "closure_household_infectiousness"]]
                else []);
          outcome :=
            if (closed && Qle_bool t time)%bool
            then outcome (intervention_num "place_closure"
                            "closure_household_infectiousness" w)
            else Ok 1 |}).
Proof.
  cbv zeta.
  split; [apply if_else_started_person|].
  split; [apply if_else_started_person|].
  split; [apply if_else_started_person|].
  split; [apply if_else_started_person|].
  split; [apply household_susc_run|].
  split; [apply place_susc_run|].
  split.
  - intros E. split; [apply closure_test_absent | apply closure_inf_absent]; exact E.
  - intros t cpt closed E V R.
    split; [apply closure_test_run | apply closure_inf_run]; assumption.
Qed.

Lemma C1_witness :
  closure_start_time
    (microcells (example_world example_person closing_microcell 1)
       (microcell (persons (example_world example_person closing_microcell 1) 0%nat)))
  = Val 0 /\
  intervention_value
    (parameters (example_world example_person closing_microcell 1))
    "place_closure" "closure_place_type" = Some (VList [1; 2; 3]) /\
  returns (is_place_closed (Collaborators := constant_collaborators 1 1 true) 0%nat
             (VList [1; 2; 3]))
    (example_world example_person closing_microcell 1) true /\
  outcome (closure_inf (C := constant_collaborators 1 1 true) 0%nat 1
             (example_world example_person closing_microcell 1)) = Ok (3 # 2) /\
  outcome (household_susc (C := constant_collaborators 1 1 true) 0%nat 1%nat 1
             (example_world example_person closing_microcell 1)) = Ok 1.
Proof.
  pose proof (C1_gates (C := constant_collaborators 1 1 true)
                (example_world example_person closing_microcell 1)
                0%nat 0%nat 1%nat 1) as (_ & _ & _ & _ & Hs & _ & _ & Hc).
  split; [reflexivity|]. split; [reflexivity|]. split; [split; reflexivity|].
  split.
  - destruct (Hc 0 (VList [1; 2; 3]) true) as [_ Hi];
      [reflexivity | reflexivity | split; reflexivity |].
    rewrite Hi. reflexivity.
  - rewrite Hs; reflexivity.
Defined.

(** C1 as first stated fails for the closure gate: the start time is there,
    is not [None] and has been reached, yet [is_place_closed] answers false,
    so the configured factor 3/2 is not read (only [closure_place_type] is)
    and [household_inf] uses the factor 1. *)
Lemma C1_counterexample :
  active (closure_start_time
            (microcells (example_world example_person closing_microcell 1)
               (microcell
                  (persons (example_world example_person closing_microcell 1) 0%nat))))
    1 = true /\
  intervention_value
    (parameters (example_world example_person closing_microcell 1))
    "place_closure" "closure_household_infectiousness" = Some (VNum (3 # 2)) /\
  outcome (closure_inf (C := constant_collaborators 1 1 false) 0%nat 1
             (example_world example_person closing_microcell 1)) = Ok 1 /\
  trace (closure_inf (C := constant_collaborators 1 1 false) 0%nat 1
           (example_world example_person closing_microcell 1))
  = [Lookup ["intervention_params"; "place_closure"; "closure_place_type"]] /\
  outcome (household_inf (C := constant_collaborators 1 1 false) 0%nat 1
             (example_world example_person closing_microcell 1)) = Ok (1 * 1).
Proof. repeat split; vm_compute; reflexivity. Qed.

(** ** Running the reads *)

Lemma returns_run {A} (m : M A) w tr a :
  m w = {| final := w; trace := tr; outcome := Ok a |} -> returns m w a.
Proof. intros E. unfold returns. rewrite E. split; reflexivity. Qed.

Lemma raises_run {A} (m : M A) w w1 tr e :
  m w = {| final := w1; trace := tr; outcome := Raise e |} -> raises m w e.
Proof. intros E. unfold raises. now rewrite E. Qed.

Lemma place_params_of_run w :
  place_params_of w
  = {| final := w;
       trace := [Lookup ["place_params"]];
       outcome := Ok (place_params (parameters w)) |}.
Proof. reflexivity. Qed.

Lemma household_transmission_of_run w :
  household_transmission_of w
  = {| final := w;
       trace := [Lookup ["household_transmission"]];
       outcome := Ok (household_transmission (parameters w)) |}.
Proof. reflexivity. Qed.

Lemma carehome_num_run key w :
  carehome_num key w
  = {| final := w;
       trace := [Lookup ["carehome_params"; key]];
       outcome := match carehome_params (parameters w) !! key with
                  | Some (VNum q) => Ok q
                  | Some (VList _) => Raise TypeError
                  | None => Raise KeyError
                  end |}.
Proof.
  unfold carehome_num, carehome_param, bind; cbn.
  destruct (carehome_params (parameters w) !! key) as [[q|l]|]; reflexivity.
Qed.

Lemma getitem_run d key v w : d !! key = Some v -> getitem d key w = ret v w.
Proof. unfold getitem. now intros ->. Qed.

Lemma num_groups_run {C : Collaborators} params place_idx l w :
  params !! "mean_group_size" = Some (VList l) ->
  num_groups params place_idx w = ret (default 1 (py_index l place_idx)) w.
Proof.
  intros E. unfold num_groups, try_except.
  rewrite (bind_ret_run _ _ _ _ (getitem_run _ _ _ w E)). cbn.
  destruct (py_index l place_idx); reflexivity.
Qed.

Lemma divide_run a b w : ~ b == 0 -> divide a b w = ret (a / b) w.
Proof.
  intros Hb. unfold divide.
  destruct (Qeq_bool b 0) eqn:E; [|reflexivity].
  apply Qeq_bool_iff in E. contradiction.
Qed.

Lemma divide_by_zero a b w : b == 0 -> divide a b w = raise ZeroDivisionError w.
Proof.
  intros Hb. unfold divide. apply Qeq_bool_iff in Hb. now rewrite Hb.
Qed.

Lemma closure_test_inactive {C : Collaborators} w infector time :
  closure_inactive w infector time -> returns (closure_test infector time) w false.
Proof.
  intros [E | cpt E V [Hw Hc] | t cpt E V R Ht].
  - unfold returns. rewrite (closure_test_absent w infector time E).
    split; reflexivity.
  - unfold closure_test.
    assert (P : (hasattr (microcell_of infector) closure_start_time
                 &&& (closure_place_type <-
                        intervention_param "place_closure" "closure_place_type" ;;
                      is_place_closed infector closure_place_type)) w
                = {| final := w;
                     trace := Lookup ["intervention_params"; "place_closure";
                                      "closure_place_type"]
                              :: trace (is_place_closed infector cpt w);
                     outcome := Ok false |}).
    { rewrite and_then_true.
      - erewrite bind_run by (rewrite intervention_param_run, V; reflexivity).
        rewrite Hw, Hc. reflexivity.
      - rewrite (hasattr_run _ _ _ _ (microcell_of_run infector w)).
        destruct (closure_start_time _); [contradiction | reflexivity ..]. }
    eapply returns_run.
    unfold and_then at 1. rewrite (bind_run _ _ _ _ _ _ P).
    reflexivity.
  - unfold returns. rewrite (closure_test_run w infector time _ _ _ E V R). cbn.
    split; [reflexivity|]. f_equal.
    destruct (Qle_bool t time) eqn:L; [|reflexivity].
    apply Qle_bool_iff in L. exfalso. apply (Qlt_not_le _ _ Ht L).
Qed.

(** ** Place infectiousness (C3, C6, C10) *)

Lemma returns_of_ret {A} (m : M A) w a : m w = ret a w -> returns m w a.
Proof. intros E. unfold returns. rewrite E. split; reflexivity. Qed.

Section PlaceInf.
Context {C : Collaborators}.
Variables (w : World) (place infector : ref) (time : Q).
Variables (transmission : value) (sizes : list Q).

Let place_idx := (place_type (places w place) - 1)%Z.

Hypothesis transmission_configured :
  place_params (parameters w) !! "place_transmission" = Some transmission.
Hypothesis sizes_configured :
  place_params (parameters w) !! "mean_group_size" = Some (VList sizes).

Let group_size := default 1 (py_index sizes place_idx).

Lemma place_inf_closed :
  returns (closure_test infector time) w true ->
  returns (place_inf place infector time) w 0.
Proof.
  intros Hc. unfold place_inf.
  eapply returns_bind; [exact (returns_run _ _ _ _ (place_params_of_run w))|].
  eapply returns_bind;
    [exact (returns_of_ret _ _ _ (getitem_run _ _ _ w transmission_configured))|].
  eapply returns_bind; [exact (returns_of_ret _ _ _ (place_at_run place w))|].
  eapply returns_bind;
    [exact (returns_of_ret _ _ _ (num_groups_run _ _ _ w sizes_configured))|].
  unfold if_else. eapply returns_bind; [exact Hc|]. apply returns_ret.
Qed.

Lemma place_inf_open (tr p : Q) :
  transmission = VNum tr ->
  ~ group_size == 0 ->
  returns (closure_test infector time) w false ->
  returns (person_inf infector time) w p ->
  returns (place_inf place infector time) w (tr / group_size * p).
Proof.
  intros -> Hg Hc Hp. unfold place_inf.
  eapply returns_bind; [exact (returns_run _ _ _ _ (place_params_of_run w))|].
  eapply returns_bind;
    [exact (returns_of_ret _ _ _ (getitem_run _ _ _ w transmission_configured))|].
  eapply returns_bind; [exact (returns_of_ret _ _ _ (place_at_run place w))|].
  eapply returns_bind;
    [exact (returns_of_ret _ _ _ (num_groups_run _ _ _ w sizes_configured))|].
  unfold if_else. eapply returns_bind; [exact Hc|].
  eapply returns_bind; [apply returns_ret|].
  eapply returns_bind; [exact (returns_of_ret _ _ _ (divide_run tr _ w Hg))|].
  eapply returns_bind; [exact Hp|]. apply returns_ret.
Qed.

Lemma place_inf_zero_group_size (tr : Q) :
  transmission = VNum tr ->
  group_size == 0 ->
  returns (closure_test infector time) w false ->
  raises (place_inf place infector time) w ZeroDivisionError.
Proof.
  intros -> Hg Hc. unfold place_inf.
  eapply raises_bind_r; [exact (returns_run _ _ _ _ (place_params_of_run w))|].
  eapply raises_bind_r;
    [exact (returns_of_ret _ _ _ (getitem_run _ _ _ w transmission_configured))|].
  eapply raises_bind_r; [exact (returns_of_ret _ _ _ (place_at_run place w))|].
  eapply raises_bind_r;
    [exact (returns_of_ret _ _ _ (num_groups_run _ _ _ w sizes_configured))|].
  unfold if_else. eapply raises_bind_r; [exact Hc|].
  eapply raises_bind_r; [apply returns_ret|].
  apply raises_bind_l.
  eapply raises_run. apply divide_by_zero. exact Hg.
Qed.

End PlaceInf.

Lemma closure_test_active {C : Collaborators} w infector time t closure_place_type :
  closure_start_time (microcells w (microcell (persons w infector))) = Val t ->
  t <= time ->
  intervention_value (parameters w) "place_closure" "closure_place_type"
    = Some closure_place_type ->
  returns (is_place_closed infector closure_place_type) w true ->
  returns (closure_test infector time) w true.
Proof.
  intros E Ht V R. eapply returns_run.
  rewrite (closure_test_run w infector time _ _ _ E V R).
  apply Qle_bool_iff in Ht. rewrite Ht. reflexivity.
Qed.

(** C3.  While closure is in force for the infector (the microcell's
    [closure_start_time] has been reached and [is_place_closed] confirms the
    configured [closure_place_type]), [place_inf] returns 0 without asking
    for the infector's infectiousness, whatever the group size, and
    [household_inf] returns the personal infectiousness times
    [closure_household_infectiousness]. *)
Theorem C3_closed_place {C : Collaborators} (w : World) (place infector : ref)
    (time t : Q) (closure_place_type : value) :
  closure_start_time (microcells w (microcell (persons w infector))) = Val t ->
  t <= time ->
  intervention_value (parameters w) "place_closure" "closure_place_type"
    = Some closure_place_type ->
  returns (is_place_closed infector closure_place_type) w true ->
  (forall transmission sizes,
     place_params (parameters w) !! "place_transmission" = Some transmission ->
     place_params (parameters w) !! "mean_group_size" = Some (VList sizes) ->
     returns (place_inf place infector time) w 0) /\
  (forall p factor,
     returns (person_inf infector time) w p ->
     intervention_value (parameters w) "place_closure"
       "closure_household_infectiousness" = Some (VNum factor) ->
     returns (household_inf infector time) w (p * factor)).
Proof.
  intros E Ht V R. split.
  - intros transmission sizes Htr Hs.
    eapply place_inf_closed; eauto using closure_test_active.
  - intros p factor Hp Hf. unfold household_inf.
    eapply returns_bind; [|eapply returns_bind; [exact Hp | apply returns_ret]].
    eapply returns_run. rewrite (closure_inf_run _ _ _ _ _ _ E V R).
    apply Qle_bool_iff in Ht. rewrite Ht. cbn [andb].
    rewrite intervention_num_run, Hf. reflexivity.
Qed.

Lemma C3_witness :
  returns (place_inf (C := constant_collaborators 1 1 true) 0%nat 0%nat 1)
    (example_world example_person closing_microcell 1) 0 /\
  returns (household_inf (C := constant_collaborators 1 1 true) 0%nat 1)
    (example_world example_person closing_microcell 1) (1 * (3 # 2)).
Proof.
  assert (T := C3_closed_place (C := constant_collaborators 1 1 true)
                 (example_world example_person closing_microcell 1)
                 0%nat 0%nat 1 0 (VList [1; 2; 3])).
  destruct T as [Tp Th];
    [reflexivity | discriminate | reflexivity | split; reflexivity |].
  split.
  - apply (Tp (VNum 1) [50; 40; 30; 20]); reflexivity.
  - apply (Th 1 (3 # 2)); [split; reflexivity | reflexivity].
Defined.



(** C10.  When the place's type has a configured mean group size equal to 0
    and closure is not in force, [place_inf] raises [ZeroDivisionError]. *)
Theorem C10_zero_group_size {C : Collaborators} (w : World)
    (place infector : ref) (time : Q) (sizes : list Q) (tr size : Q) :
  place_params (parameters w) !! "mean_group_size" = Some (VList sizes) ->
  py_index sizes (place_type (places w place) - 1) = Some size ->
  size == 0 ->
  place_params (parameters w) !! "place_transmission" = Some (VNum tr) ->
  closure_inactive w infector time ->
  raises (place_inf place infector time) w ZeroDivisionError.
Proof.
  intros Hs Hi Ez Htr Hc.
  pose proof (place_inf_zero_group_size w place infector time (VNum tr) sizes
                Htr Hs tr) as T.
  rewrite Hi in T. apply T; auto using closure_test_inactive.
Qed.

Lemma C10_witness :
  raises (place_inf (C := constant_collaborators 2 1 false) 0%nat 0%nat 1)
    (set_parameters (example_world example_person quiet_microcell 1)
       zero_size_parameters)
    ZeroDivisionError.
Proof.
  apply (C10_zero_group_size (C := constant_collaborators 2 1 false)
           (set_parameters (example_world example_person quiet_microcell 1)
              zero_size_parameters)
           0%nat 0%nat 1 [0; 40; 30; 20] 1 0);
    try reflexivity.
  apply closure_never_scheduled. reflexivity.
Defined.

(** ** Index misses outside [place_inf] (C4) *)

(** C4.  Only [mean_group_size] has a default.  When the place's index is
    missing from the distancing list in use, [place_susc] under active
    distancing raises [IndexError]; when it is missing from
    [quarantine_place_effectiveness], [place_foi] under active quarantine
    raises [IndexError]. *)
Theorem C4_index_miss_raises {C : Collaborators} (w : World)
    (place infector infectee : ref) (time : Q) (factors : list Q) :
  py_index factors (place_type (places w place) - 1) = None ->
  (active (distancing_start_time (microcells w (microcell (persons w infector))))
     time = true ->
   intervention_value (parameters w) "social_distancing"
     (if distancing_enhanced (persons w infector)
      then "distancing_place_enhanced_susc"
      else "distancing_place_susc") = Some (VList factors) ->
   raises (place_susc place infector infectee time) w IndexError) /\
  (active (quarantine_start_time (persons w infector)) time = true ->
   intervention_value (parameters w) "household_quarantine"
     "quarantine_place_effectiveness" = Some (VList factors) ->
   forall c i,
     returns (carehome_scale_susc place infector infectee) w c ->
     returns (PlaceInfection.isolating infector time) w i ->
     raises (place_foi place infector infectee time) w IndexError).
Proof.
  intros Hi. split.
  - intros Ha V. unfold raises. rewrite place_susc_run, Ha.
    erewrite bind_raise_run; [reflexivity|].
    rewrite intervention_item_run, V, Hi. reflexivity.
  - intros Ha V c i Hc His. unfold place_foi.
    eapply raises_bind_r; [exact Hc|].
    eapply raises_bind_r; [exact His|].
    eapply raises_bind_r; [exact (returns_of_ret _ _ _ (place_at_run place w))|].
    apply raises_bind_l. unfold raises, PlaceInfection.quarantine.
    rewrite if_else_started_person, Ha.
    rewrite intervention_item_run, V, Hi. reflexivity.
Qed.

Lemma C4_witness :
  raises (place_susc 0%nat 0%nat 1%nat 1)
    (example_world example_person distancing_microcell 6) IndexError /\
  raises (place_foi (C := constant_collaborators 2 1 false) 0%nat 0%nat 1%nat 1)
    (example_world (with_quarantine example_person (Val 0)) quiet_microcell 6)
    IndexError /\
  returns (place_inf (C := constant_collaborators 2 1 false) 0%nat 0%nat 1)
    (example_world example_person distancing_microcell 6) (1 / 1 * 2).
Proof.
  split; [|split].
  - apply (C4_index_miss_raises (C := constant_collaborators 2 1 false)
             (example_world example_person distancing_microcell 6)
             0%nat 0%nat 1%nat 1 [1#2; 1#2; 1#2; 1#2]);
      reflexivity.
  - apply (C4_index_miss_raises (C := constant_collaborators 2 1 false)
             (example_world (with_quarantine example_person (Val 0))
                quiet_microcell 6)
             0%nat 0%nat 1%nat 1 [1#2; 1#2; 1#2; 1#2]
             eq_refl) with (c := 1) (i := 1);
      try reflexivity; split; reflexivity.
  - split; reflexivity.
Defined.

(** ** Putting the factors together (C2, C5) *)

Lemma household_foi_returns {C : Collaborators} w infector infectee time
    ci cs iso q hi hs :
  returns (carehome_scale infector) w ci ->
  returns (carehome_scale infectee) w cs ->
  returns (HouseholdInfection.isolating infector time) w iso ->
  returns (HouseholdInfection.quarantine infector time) w q ->
  returns (household_inf infector time) w hi ->
  returns (household_susc infector infectee time) w hs ->
  returns (household_foi infector infectee time) w
    (hi * 1 * household_transmission (parameters w) * ci * iso * q * (hs * cs)).
Proof.
  intros Hci Hcs Hiso Hq Hhi Hhs. unfold household_foi.
  eapply returns_bind; [exact Hci|].
  eapply returns_bind; [exact Hcs|].
  eapply returns_bind; [exact Hiso|].
  eapply returns_bind; [exact Hq|].
  eapply returns_bind.
  { eapply returns_bind; [exact Hhi|].
    eapply returns_bind;
      [exact (returns_run _ _ _ _ (household_transmission_of_run w))|].
    apply returns_ret. }
  eapply returns_bind.
  { eapply returns_bind; [exact Hhs|]. apply returns_ret. }
  apply returns_ret.
Qed.

Lemma place_foi_returns {C : Collaborators} w place infector infectee time
    c iso q pi ps :
  returns (carehome_scale_susc place infector infectee) w c ->
  returns (PlaceInfection.isolating infector time) w iso ->
  returns (PlaceInfection.quarantine (place_type (places w place) - 1) infector time)
    w q ->
  returns (place_inf place infector time) w pi ->
  returns (place_susc place infector infectee time) w ps ->
  returns (place_foi place infector infectee time) w
    (pi * iso * q * (ps * c * q)).
Proof.
  intros Hc Hiso Hq Hpi Hps. unfold place_foi.
  eapply returns_bind; [exact Hc|].
  eapply returns_bind; [exact Hiso|].
  eapply returns_bind; [exact (returns_of_ret _ _ _ (place_at_run place w))|].
  eapply returns_bind; [exact Hq|].
  eapply returns_bind.
  { eapply returns_bind; [exact Hpi|]. apply returns_ret. }
  eapply returns_bind.
  { eapply returns_bind; [exact Hps|]. apply returns_ret. }
  apply returns_ret.
Qed.

Lemma gate_person_inactive (x : M Q) infector a time w :
  active (a (persons w infector)) time = false ->
  returns (if_else x (started (person infector) a time) (ret 1)) w 1.
Proof.
  intros Ha. apply returns_of_ret. now rewrite if_else_started_person, Ha.
Qed.

Lemma gate_num_active name key infector a time w f :
  active (a (persons w infector)) time = true ->
  intervention_value (parameters w) name key = Some (VNum f) ->
  returns (if_else (intervention_num name key)
             (started (person infector) a time) (ret 1)) w f.
Proof.
  intros Ha V. eapply returns_run.
  rewrite if_else_started_person, Ha, intervention_num_run, V. reflexivity.
Qed.

Lemma gate_item_active name key i infector a time w l f :
  active (a (persons w infector)) time = true ->
  intervention_value (parameters w) name key = Some (VList l) ->
  py_index l i = Some f ->
  returns (if_else (intervention_item name key i)
             (started (person infector) a time) (ret 1)) w f.
Proof.
  intros Ha V Hi. eapply returns_run.
  rewrite if_else_started_person, Ha, intervention_item_run, V, Hi. reflexivity.
Qed.

Lemma carehome_scale_home r w :
  care_home_resident (persons w r) = false -> returns (carehome_scale r) w 1.
Proof.
  intros E. apply returns_of_ret. unfold carehome_scale.
  rewrite (bind_ret_run _ _ _ _ (person_run r w)). now rewrite E.
Qed.

Lemma household_inf_open {C : Collaborators} w infector time p :
  closure_inactive w infector time ->
  returns (person_inf infector time) w p ->
  returns (household_inf infector time) w (p * 1).
Proof.
  intros Hc Hp. unfold household_inf, closure_inf, if_else.
  eapply returns_bind.
  { eapply returns_bind; [exact (closure_test_inactive _ _ _ Hc)|].
    apply returns_ret. }
  eapply returns_bind; [exact Hp|]. apply returns_ret.
Qed.

Lemma household_susc_plain {C : Collaborators} w infector infectee time s :
  active (distancing_start_time (microcells w (microcell (persons w infector))))
    time = false ->
  returns (person_susc infector infectee time) w s ->
  returns (household_susc infector infectee time) w s.
Proof.
  intros Ha Hs. unfold returns.
  rewrite (household_susc_run _ _ _ _ (proj1 Hs)), Ha.
  fold (returns (x <- person_susc infector infectee time ;; ret x) w s).
  eapply returns_bind; [exact Hs | apply returns_ret].
Qed.

(** C2.  Under active quarantine of the infector, [place_foi] multiplies the
    entry of [quarantine_place_effectiveness] for the place's type into the
    infectiousness term and into the susceptibility term, so that it enters
    the product squared; [household_foi] multiplies
    [quarantine_house_effectiveness] into the infectiousness term only. *)
Theorem C2_quarantine_twice_in_places {C : Collaborators} (w : World)
    (place infector infectee : ref) (time : Q) :
  active (quarantine_start_time (persons w infector)) time = true ->
  (forall factors q c iso pi ps,
     intervention_value (parameters w) "household_quarantine"
       "quarantine_place_effectiveness" = Some (VList factors) ->
     py_index factors (place_type (places w place) - 1) = Some q ->
     returns (carehome_scale_susc place infector infectee) w c ->
     returns (PlaceInfection.isolating infector time) w iso ->
     returns (place_inf place infector time) w pi ->
     returns (place_susc place infector infectee time) w ps ->
     returns (place_foi place infector infectee time) w
       ((pi * iso * q) * (ps * c * q)) /\
     (pi * iso * q) * (ps * c * q) == (pi * iso) * (ps * c) * (q * q)) /\
  (forall q ci cs iso hi hs,
     intervention_value (parameters w) "household_quarantine"
       "quarantine_house_effectiveness" = Some (VNum q) ->
     returns (carehome_scale infector) w ci ->
     returns (carehome_scale infectee) w cs ->
     returns (HouseholdInfection.isolating infector time) w iso ->
     returns (household_inf infector time) w hi ->
     returns (household_susc infector infectee time) w hs ->
     returns (household_foi infector infectee time) w
       ((hi * 1 * household_transmission (parameters w) * ci * iso * q)
        * (hs * cs)) /\
     (hi * 1 * household_transmission (parameters w) * ci * iso * q) * (hs * cs)
     == (hi * household_transmission (parameters w) * ci * iso) * (hs * cs) * q).
Proof.
  intros Ha. split.
  - intros factors q c iso pi ps V Hi Hc Hiso Hpi Hps. split; [|ring].
    apply place_foi_returns; auto.
    exact (gate_item_active _ _ _ _ _ _ _ _ _ Ha V Hi).
  - intros q ci cs iso hi hs V Hci Hcs Hiso Hhi Hhs. split; [|ring].
    apply household_foi_returns; auto.
    exact (gate_num_active _ _ _ _ _ _ _ Ha V).
Qed.

(** C5.  With a household transmission of 0.2, a personal infectiousness
    of 1, a personal susceptibility of 1, closure, distancing, isolation and
    quarantine all out of force, and neither person a care home resident,
    [household_foi] returns 0.2. *)
Theorem C5_household_baseline {C : Collaborators} (w : World)
    (infector infectee : ref) (time p s : Q) :
  household_transmission (parameters w) == 2 # 10 ->
  returns (person_inf infector time) w p -> p == 1 ->
  returns (person_susc infector infectee time) w s -> s == 1 ->
  closure_inactive w infector time ->
  active (distancing_start_time (microcells w (microcell (persons w infector))))
    time = false ->
  active (isolation_start_time (persons w infector)) time = false ->
  active (quarantine_start_time (persons w infector)) time = false ->
  care_home_resident (persons w infector) = false ->
  care_home_resident (persons w infectee) = false ->
  exists v, returns (household_foi infector infectee time) w v /\ v == 2 # 10.
Proof.
  intros Ht Hp Ep Hs Es Hc Hd Hi Hq Hr Hr'.
  eexists. split.
  - apply household_foi_returns;
      eauto using carehome_scale_home, gate_person_inactive, household_inf_open,
        household_susc_plain.
  - rewrite Ht, Ep, Es. reflexivity.
Qed.

Lemma C5_witness :
  exists v,
    returns (household_foi (C := constant_collaborators 1 1 false) 0%nat 1%nat 1)
      (example_world example_person quiet_microcell 1) v /\ v == 2 # 10.
Proof.
  apply (C5_household_baseline (C := constant_collaborators 1 1 false)
           (example_world example_person quiet_microcell 1) 0%nat 1%nat 1 1 1);
    try reflexivity; try (split; reflexivity).
  apply closure_never_scheduled. reflexivity.
Defined.

Lemma C2_witness :
  returns (place_foi (C := constant_collaborators 1 1 false) 0%nat 0%nat 1%nat 1)
    (example_world (with_quarantine example_person (Val 0)) quiet_microcell 1)
    ((1 / 50 * 1) * 1 * (1 # 2) * (1 * 1 * (1 # 2))) /\
  returns (household_foi (C := constant_collaborators 1 1 false) 0%nat 1%nat 1)
    (example_world (with_quarantine example_person (Val 0)) quiet_microcell 1)
    ((1 * 1) * 1 * (2 # 10) * 1 * 1 * (1 # 2) * (1 * 1)).
Proof.
  pose proof (C2_quarantine_twice_in_places (C := constant_collaborators 1 1 false)
                (example_world (with_quarantine example_person (Val 0))
                   quiet_microcell 1)
                0%nat 0%nat 1%nat 1 eq_refl) as [Tp Th].
  split.
  - apply (Tp [1#2; 1#2; 1#2; 1#2] (1 # 2) 1 1 (1 / 50 * 1) 1);
      try reflexivity; split; reflexivity.
  - apply (Th (1 # 2) 1 1 1 (1 * 1) 1); try reflexivity; split; reflexivity.
Defined.

(** ** Non-negativity (C8) *)

Lemma ensures_post {A} (m : M A) w (P : A -> Prop) :
  pure m -> (forall a, outcome (m w) = Ok a -> P a) -> ensures m w P.
Proof.
  intros Hm HP. split; [apply Hm|].
  destruct (outcome (m w)) as [a|e]; auto.
Qed.

Lemma ensures_if_else {A} (x y : M A) (c : M bool) w (P : A -> Prop) :
  pure c -> ensures x w P -> ensures y w P -> ensures (if_else x c y) w P.
Proof.
  intros Hc Hx Hy. unfold if_else.
  eapply ensures_bind; [exact (ensures_pure _ w Hc)|].
  intros [] _; assumption.
Qed.

Lemma py_index_In l i q : py_index l i = Some q -> In q l.
Proof.
  unfold py_index. intros H.
  destruct (0 <=? i)%Z; [|destruct (- Z.of_nat (length l) <=? i)%Z];
    try discriminate;
    apply list_elem_of_In; eapply list_elem_of_lookup_2; exact H.
Qed.

Lemma nonneg_item l i q : Forall (Qle 0) l -> py_index l i = Some q -> 0 <= q.
Proof.
  intros Hl Hi. apply py_index_In in Hi.
  rewrite List.Forall_forall in Hl. auto.
Qed.

Section NonNegative.
Context {C : Collaborators}.
Variable w : World.
Hypothesis collaborators_pure : pure_collaborators.
Hypothesis values_nonneg : collaborators_nonneg.
Hypothesis configured_nonneg : params_nonneg (parameters w).

Lemma nonneg_intervention_value name key v :
  intervention_value (parameters w) name key = Some v -> nonneg_value v.
Proof.
  unfold intervention_value. intros H.
  destruct (intervention_params (parameters w) !! name) as [d|] eqn:E;
    [|discriminate].
  cbn in H.
  destruct configured_nonneg as (_ & _ & _ & Hi).
  exact (Hi name d E key v H).
Qed.

Lemma nonneg_intervention_num name key :
  ensures (intervention_num name key) w (Qle 0).
Proof.
  apply ensures_post; [apply pure_intervention_num|].
  intros q. rewrite intervention_num_run; cbn.
  destruct (intervention_value _ _ _) as [[q'|l]|] eqn:E; try discriminate.
  intros [= <-]. exact (nonneg_intervention_value _ _ _ E).
Qed.

Lemma nonneg_intervention_item name key i :
  ensures (intervention_item name key i) w (Qle 0).
Proof.
  apply ensures_post; [apply pure_intervention_item|].
  intros q. rewrite intervention_item_run; cbn.
  destruct (intervention_value _ _ _) as [[q'|l]|] eqn:E; try discriminate.
  destruct (py_index l i) as [q'|] eqn:Hi; try discriminate.
  intros [= <-]. exact (nonneg_item _ _ _ (nonneg_intervention_value _ _ _ E) Hi).
Qed.

Lemma nonneg_carehome_num key : ensures (carehome_num key) w (Qle 0).
Proof.
  apply ensures_post; [apply pure_carehome_num|].
  intros q. rewrite carehome_num_run; cbn.
  destruct (carehome_params (parameters w) !! key) as [[q'|l]|] eqn:E;
    try discriminate.
  intros [= <-].
  destruct configured_nonneg as (_ & _ & Hc & _). exact (Hc key _ E).
Qed.

Lemma nonneg_one : ensures (ret 1) w (Qle 0).
Proof. apply ensures_ret. discriminate. Qed.

Lemma nonneg_person_inf i t : ensures (person_inf i t) w (Qle 0).
Proof.
  apply ensures_post; [apply collaborators_pure|].
  intros v. apply values_nonneg.
Qed.

Lemma nonneg_person_susc i j t : ensures (person_susc i j t) w (Qle 0).
Proof.
  apply ensures_post; [apply collaborators_pure|].
  intros v. apply values_nonneg.
Qed.

Lemma ensures_try_except {A} (m h : M A) c (P : A -> Prop) :
  ensures m w P -> ensures h w P -> ensures (try_except m c h) w P.
Proof.
  intros [Hw Hm] [Hw' Hh]. unfold ensures, try_except.
  destruct (outcome (m w)) as [a|e] eqn:E.
  - rewrite E. auto.
  - destruct (c e); cbn; [rewrite Hw; auto | rewrite E; auto].
Qed.

Lemma nonneg_number v : nonneg_value v -> ensures (number v) w (Qle 0).
Proof. destruct v; intros Hv; [apply ensures_ret, Hv | apply ensures_raise]. Qed.

Lemma nonneg_item_value v i : nonneg_value v -> ensures (item v i) w (Qle 0).
Proof.
  destruct v as [q|l]; intros Hv; [apply ensures_raise|]. cbn.
  destruct (py_index l i) as [q|] eqn:Hi; [|apply ensures_raise].
  apply ensures_ret. exact (nonneg_item _ _ _ Hv Hi).
Qed.

Lemma nonneg_getitem key :
  ensures (getitem (place_params (parameters w)) key) w nonneg_value.
Proof.
  unfold getitem.
  destruct (place_params (parameters w) !! key) as [v|] eqn:E;
    [|apply ensures_raise].
  apply ensures_ret. destruct configured_nonneg as (_ & Hp & _). exact (Hp key v E).
Qed.

Lemma nonneg_divide a b : 0 <= a -> 0 <= b -> ensures (divide a b) w (Qle 0).
Proof.
  intros Ha Hb. unfold divide.
  destruct (Qeq_bool b 0); [apply ensures_raise|].
  apply ensures_ret. apply Qmult_le_0_compat; [exact Ha|].
  now apply Qinv_le_0_compat.
Qed.

Ltac nonneg_arith :=
  repeat apply Qmult_le_0_compat; try assumption; try discriminate.

Ltac nonneg_leaf :=
  first
    [ apply nonneg_intervention_num
    | apply nonneg_intervention_item
    | apply nonneg_carehome_num
    | apply nonneg_person_inf
    | apply nonneg_person_susc
    | apply nonneg_one
    | apply ensures_pure;
      auto using pure_started, pure_person, pure_microcell_of, pure_place_at,
        pure_closure_test ].

Ltac nonneg_bind := eapply ensures_bind; [nonneg_leaf | cbn beta; intros].

Lemma nonneg_closure_inf infector time :
  ensures (closure_inf infector time) w (Qle 0).
Proof.
  apply ensures_if_else;
    auto using pure_closure_test, nonneg_intervention_num, nonneg_one.
Qed.

Lemma nonneg_household_inf infector time :
  ensures (household_inf infector time) w (Qle 0).
Proof.
  unfold household_inf.
  eapply ensures_bind; [apply nonneg_closure_inf | cbn beta; intros].
  nonneg_bind. apply ensures_ret. nonneg_arith.
Qed.

Lemma nonneg_household_susc infector infectee time :
  ensures (household_susc infector infectee time) w (Qle 0).
Proof.
  unfold household_susc.
  eapply ensures_bind; [nonneg_leaf | cbn beta; intros s Hs].
  eapply ensures_bind; [nonneg_leaf | cbn beta; intros distancing _].
  destruct distancing; [|now apply ensures_ret].
  nonneg_bind.
  destruct (distancing_enhanced _); nonneg_bind; apply ensures_ret; nonneg_arith.
Qed.

Lemma nonneg_gate (x : M Q) infector a time :
  ensures x w (Qle 0) ->
  ensures (if_else x (started (person infector) a time) (ret 1)) w (Qle 0).
Proof.
  intros Hx.
  apply ensures_if_else; auto using pure_started, pure_person, nonneg_one.
Qed.

Lemma nonneg_carehome_scale r : ensures (carehome_scale r) w (Qle 0).
Proof.
  unfold carehome_scale. nonneg_bind.
  destruct (care_home_resident _); nonneg_leaf.
Qed.

Lemma nonneg_household_foi infector infectee time :
  ensures (household_foi infector infectee time) w (Qle 0).
Proof.
  unfold household_foi.
  eapply ensures_bind; [apply nonneg_carehome_scale | cbn beta; intros ci ?].
  eapply ensures_bind; [apply nonneg_carehome_scale | cbn beta; intros cs ?].
  eapply ensures_bind;
    [apply nonneg_gate, nonneg_intervention_num | cbn beta; intros iso ?].
  eapply ensures_bind;
    [apply nonneg_gate, nonneg_intervention_num | cbn beta; intros q ?].
  eapply ensures_bind with (P := Qle 0).
  { eapply ensures_bind; [apply nonneg_household_inf | cbn beta; intros hi ?].
    eapply ensures_bind with (P := Qle 0).
    - apply ensures_post; [apply pure_household_transmission_of|].
      intros ht [= <-]. apply configured_nonneg.
    - cbn beta; intros ht ?. apply ensures_ret. nonneg_arith. }
  cbn beta; intros infectiousness ?.
  eapply ensures_bind with (P := Qle 0).
  { eapply ensures_bind; [apply nonneg_household_susc | cbn beta; intros hs ?].
    apply ensures_ret. nonneg_arith. }
  cbn beta; intros susceptibility ?. apply ensures_ret. nonneg_arith.
Qed.

Lemma nonneg_num_groups place_idx :
  ensures (num_groups (place_params (parameters w)) place_idx) w (Qle 0).
Proof.
  unfold num_groups. apply ensures_try_except; [|apply nonneg_one].
  eapply ensures_bind; [apply nonneg_getitem | cbn beta; intros v Hv].
  now apply nonneg_item_value.
Qed.

Lemma nonneg_place_inf place infector time :
  ensures (place_inf place infector time) w (Qle 0).
Proof.
  unfold place_inf.
  eapply ensures_bind with (P := fun d => d = place_params (parameters w)).
  { apply ensures_post; [apply pure_place_params_of|]. now intros d [= <-]. }
  cbn beta; intros params ->.
  eapply ensures_bind; [apply nonneg_getitem | cbn beta; intros tr Htr].
  nonneg_bind.
  eapply ensures_bind; [apply nonneg_num_groups | cbn beta; intros g Hg].
  apply ensures_if_else; auto using pure_closure_test.
  - apply ensures_ret. discriminate.
  - eapply ensures_bind; [apply nonneg_number, Htr | cbn beta; intros t Ht].
    eapply ensures_bind; [apply nonneg_divide; assumption | cbn beta; intros q Hq].
    nonneg_bind. apply ensures_ret. nonneg_arith.
Qed.

Lemma nonneg_place_susc place infector infectee time :
  ensures (place_susc place infector infectee time) w (Qle 0).
Proof.
  unfold place_susc.
  nonneg_bind.
  eapply ensures_bind; [nonneg_leaf | cbn beta; intros distancing _].
  destruct distancing; [|apply nonneg_one].
  nonneg_bind.
  destruct (distancing_enhanced _); nonneg_bind; apply ensures_ret; nonneg_arith.
Qed.

Lemma nonneg_carehome_scale_susc place infector infectee :
  ensures (carehome_scale_susc place infector infectee) w (Qle 0).
Proof.
  unfold carehome_scale_susc. nonneg_bind. nonneg_bind. nonneg_bind.
  destruct (_ && _)%bool; nonneg_leaf.
Qed.

Lemma nonneg_place_foi place infector infectee time :
  ensures (place_foi place infector infectee time) w (Qle 0).
Proof.
  unfold place_foi.
  eapply ensures_bind; [apply nonneg_carehome_scale_susc | cbn beta; intros c ?].
  eapply ensures_bind;
    [apply nonneg_gate, nonneg_intervention_num | cbn beta; intros iso ?].
  nonneg_bind.
  eapply ensures_bind;
    [apply nonneg_gate, nonneg_intervention_item | cbn beta; intros q ?].
  eapply ensures_bind with (P := Qle 0).
  { eapply ensures_bind; [apply nonneg_place_inf | cbn beta; intros pi ?].
    apply ensures_ret. nonneg_arith. }
  cbn beta; intros infectiousness ?.
  eapply ensures_bind with (P := Qle 0).
  { eapply ensures_bind; [apply nonneg_place_susc | cbn beta; intros ps ?].
    apply ensures_ret. nonneg_arith. }
  cbn beta; intros susceptibility ?. apply ensures_ret. nonneg_arith.
Qed.

End NonNegative.

(** C8.  If every configured number is non-negative and personal
    infectiousness and susceptibility are never negative, every value that
    [household_foi] or [place_foi] returns is non-negative.  (The
    collaborators are taken not to assign to the store.) *)
Theorem C8_nonnegative {C : Collaborators} (w : World)
    (place infector infectee : ref) (time : Q) :
  pure_collaborators ->
  collaborators_nonneg ->
  params_nonneg (parameters w) ->
  (forall v, outcome (household_foi infector infectee time w) = Ok v -> 0 <= v) /\
  (forall v, outcome (place_foi place infector infectee time w) = Ok v -> 0 <= v).
Proof.
  intros Hpure Hnn Hp. split; intros v.
  - apply (ensures_returns _ w (Qle 0)), nonneg_household_foi; assumption.
  - apply (ensures_returns _ w (Qle 0)), nonneg_place_foi; assumption.
Qed.

Lemma example_parameters_nonneg : params_nonneg example_parameters.
Proof.
  unfold params_nonneg, example_parameters; cbn.
  split; [discriminate|].
  repeat split;
    repeat first
      [ apply map_Forall_insert_2
      | apply map_Forall_singleton
      | apply List.Forall_cons
      | apply List.Forall_nil
      | discriminate ].
Qed.

(** A closed place: the value 0 is returned. *)
Lemma C8_witness :
  outcome (household_foi (C := constant_collaborators 1 1 true) 0%nat 1%nat 1
             (example_world example_person closing_microcell 1)) = Ok (6 # 20) /\
  0 <= 6 # 20 /\
  outcome (place_foi (C := constant_collaborators 1 1 true) 0%nat 0%nat 1%nat 1
             (example_world example_person closing_microcell 1)) = Ok 0 /\
  0 <= 0.
Proof.
  assert (P : @pure_collaborators (constant_collaborators 1 1 true))
    by (repeat split).
  assert (N : @collaborators_nonneg (constant_collaborators 1 1 true))
    by (split; intros * [= <-]; discriminate).
  destruct (C8_nonnegative (C := constant_collaborators 1 1 true)
              (example_world example_person closing_microcell 1)
              0%nat 0%nat 1%nat 1 P N example_parameters_nonneg) as [Th Tp].
  split; [reflexivity|]. split; [apply Th; reflexivity|].
  split; [reflexivity|]. apply Tp; reflexivity.
Defined.

(** ** Modifiers never increase the force of infection (C7) *)

Lemma returns_bind_inv {A B} (m : M A) (f : A -> M B) w b :
  pure m -> returns (x <- m ;; f x) w b ->
  exists a, returns m w a /\ returns (f a) w b.
Proof.
  intros Hm [Hw Hb]. unfold bind in Hw, Hb.
  destruct (outcome (m w)) as [a|e] eqn:E; cbn in Hw, Hb; [|discriminate].
  rewrite Hm in Hw, Hb. exists a. repeat split; auto.
Qed.

Lemma returns_unique {A} (m : M A) w a b : returns m w a -> returns m w b -> a = b.
Proof. intros [_ Ha] [_ Hb]. congruence. Qed.

Lemma pure_carehome_scale r : pure (carehome_scale r).
Proof. purity. Qed.

Lemma pure_carehome_scale_susc place infector infectee :
  pure (carehome_scale_susc place infector infectee).
Proof. purity. Qed.

Lemma pure_gate (x : M Q) infector a time :
  pure x -> pure (if_else x (started (person infector) a time) (ret 1)).
Proof. purity. Qed.

Lemma returns_intervention_num name key w f :
  scalar (intervention_value (parameters w) name key) = Some f ->
  returns (intervention_num name key) w f.
Proof.
  intros V. eapply returns_run. rewrite intervention_num_run.
  destruct (intervention_value _ _ _) as [[q|l]|]; try discriminate.
  injection V as ->. reflexivity.
Qed.

Lemma returns_intervention_item name key i w f :
  entry (intervention_value (parameters w) name key) i = Some f ->
  returns (intervention_item name key i) w f.
Proof.
  intros V. eapply returns_run. rewrite intervention_item_run.
  destruct (intervention_value _ _ _) as [[q|l]|]; try discriminate.
  cbn in V. rewrite V. reflexivity.
Qed.

Lemma returns_ret_inv {A} (a b : A) w : returns (ret a) w b -> b = a.
Proof. intros H. exact (returns_unique _ _ _ _ H (returns_ret a w)). Qed.

Lemma household_foi_inv {C : Collaborators} w infector infectee time v :
  pure_collaborators ->
  returns (household_foi infector infectee time) w v ->
  exists ci cs iso q hi hs,
    returns (carehome_scale infector) w ci /\
    returns (carehome_scale infectee) w cs /\
    returns (HouseholdInfection.isolating infector time) w iso /\
    returns (HouseholdInfection.quarantine infector time) w q /\
    returns (household_inf infector time) w hi /\
    returns (household_susc infector infectee time) w hs /\
    v = hi * 1 * household_transmission (parameters w) * ci * iso * q * (hs * cs).
Proof.
  intros HC H. unfold household_foi in H.
  apply returns_bind_inv in H as (ci & Hci & H); [|apply pure_carehome_scale].
  apply returns_bind_inv in H as (cs & Hcs & H); [|apply pure_carehome_scale].
  apply returns_bind_inv in H as (iso & Hiso & H);
    [|apply pure_gate, pure_intervention_num].
  apply returns_bind_inv in H as (q & Hq & H);
    [|apply pure_gate, pure_intervention_num].
  apply returns_bind_inv in H as (inf & Hinf & H);
    [|auto using pure_household_inf with purity].
  apply returns_bind_inv in H as (susc & Hsusc & H);
    [|auto using pure_household_susc with purity].
  apply returns_ret_inv in H.
  apply returns_bind_inv in Hinf as (hi & Hhi & Hinf);
    [|auto using pure_household_inf].
  apply returns_bind_inv in Hinf as (ht & Hht & Hinf);
    [|apply pure_household_transmission_of].
  apply returns_ret_inv in Hinf.
  apply returns_bind_inv in Hsusc as (hs & Hhs & Hsusc);
    [|auto using pure_household_susc].
  apply returns_ret_inv in Hsusc.
  rewrite (returns_unique _ _ _ _ Hht
             (returns_run _ _ _ _ (household_transmission_of_run w))) in Hinf.
  exists ci, cs, iso, q, hi, hs. subst. auto 10.
Qed.

Lemma place_foi_inv {C : Collaborators} w place infector infectee time v :
  pure_collaborators ->
  returns (place_foi place infector infectee time) w v ->
  exists c iso q pi ps,
    returns (carehome_scale_susc place infector infectee) w c /\
    returns (PlaceInfection.isolating infector time) w iso /\
    returns (PlaceInfection.quarantine (place_type (places w place) - 1)
               infector time) w q /\
    returns (place_inf place infector time) w pi /\
    returns (place_susc place infector infectee time) w ps /\
    v = pi * iso * q * (ps * c * q).
Proof.
  intros HC H. unfold place_foi in H.
  apply returns_bind_inv in H as (c & Hc & H); [|apply pure_carehome_scale_susc].
  apply returns_bind_inv in H as (iso & Hiso & H);
    [|apply pure_gate, pure_intervention_num].
  apply returns_bind_inv in H as (pl & Hpl & H); [|apply pure_place_at].
  rewrite (returns_unique _ _ _ _ Hpl (returns_of_ret _ _ _ (place_at_run place w)))
    in H.
  apply returns_bind_inv in H as (q & Hq & H);
    [|apply pure_gate, pure_intervention_item].
  apply returns_bind_inv in H as (inf & Hinf & H);
    [|auto using pure_place_inf with purity].
  apply returns_bind_inv in H as (susc & Hsusc & H);
    [|auto using pure_place_susc with purity].
  apply returns_ret_inv in H.
  apply returns_bind_inv in Hinf as (pi & Hpi & Hinf);
    [|auto using pure_place_inf].
  apply returns_ret_inv in Hinf.
  apply returns_bind_inv in Hsusc as (ps & Hps & Hsusc);
    [|auto using pure_place_susc].
  apply returns_ret_inv in Hsusc.
  exists c, iso, q, pi, ps. subst. auto 10.
Qed.

Lemma shrink (v r : Q) : 0 <= v -> 0 <= r <= 1 -> v * r <= v.
Proof. intros Hv [H0 H1]. nra. Qed.

Lemma unit_mul (r s : Q) : 0 <= r <= 1 -> 0 <= s <= 1 -> 0 <= r * s <= 1.
Proof. intros [? ?] [? ?]. split; nra. Qed.

Section Frame.
Context {C : Collaborators}.
Variables (w w' : World).
Hypothesis collaborators_pure : pure_collaborators.
Hypothesis frame : same_but_start_times w w'.
Hypothesis agree : collaborators_agree w w'.

Let pure_inf i t : pure (person_inf i t).
Proof. apply collaborators_pure. Qed.
Let pure_susc i j t : pure (person_susc i j t).
Proof. apply collaborators_pure. Qed.
Let pure_closed i v : pure (is_place_closed i v).
Proof. apply collaborators_pure. Qed.

#[local] Hint Resolve pure_inf pure_susc pure_closed : purity.

Lemma same_result_returns {A} (m : M A) a :
  pure m -> same_result w w' m -> returns m w a -> returns m w' a.
Proof. intros Hm E [_ Ha]. split; [apply Hm | unfold same_result in E; congruence]. Qed.

Lemma same_result_bind {A B} (m : M A) (f g : A -> M B) :
  pure m -> same_result w w' m ->
  (forall a, outcome (f a w') = outcome (g a w)) ->
  outcome ((x <- m ;; f x) w') = outcome ((x <- m ;; g x) w).
Proof.
  intros Hm E Hf. unfold bind. rewrite E, !Hm.
  destruct (outcome (m w)); cbn; auto.
Qed.

Lemma same_intervention_param name key :
  same_result w w' (intervention_param name key).
Proof.
  unfold same_result. rewrite !intervention_param_run; cbn.
  now rewrite (same_parameters _ _ frame).
Qed.

Lemma same_intervention_num name key :
  same_result w w' (intervention_num name key).
Proof.
  unfold same_result. rewrite !intervention_num_run; cbn.
  now rewrite (same_parameters _ _ frame).
Qed.

Lemma same_intervention_item name key i :
  same_result w w' (intervention_item name key i).
Proof.
  unfold same_result. rewrite !intervention_item_run; cbn.
  now rewrite (same_parameters _ _ frame).
Qed.

Lemma same_carehome_num key : same_result w w' (carehome_num key).
Proof.
  unfold same_result. rewrite !carehome_num_run; cbn.
  now rewrite (same_parameters _ _ frame).
Qed.

Lemma same_carehome_scale r : same_result w w' (carehome_scale r).
Proof.
  unfold same_result, carehome_scale.
  rewrite !(bind_ret_run _ _ _ _ (person_run r _)).
  rewrite (same_care_home_resident _ _ frame).
  destruct (care_home_resident _); [apply same_carehome_num | reflexivity].
Qed.

Lemma same_carehome_scale_susc place infector infectee :
  same_result w w' (carehome_scale_susc place infector infectee).
Proof.
  unfold same_result, carehome_scale_susc.
  rewrite !(bind_ret_run _ _ _ _ (place_at_run place _)).
  rewrite !(bind_ret_run _ _ _ _ (person_run infectee _)).
  rewrite !(bind_ret_run _ _ _ _ (person_run infector _)).
  rewrite (same_places _ _ frame), !(same_key_worker _ _ frame).
  destruct (_ && _)%bool; [apply same_carehome_num | reflexivity].
Qed.

Lemma same_closure_test infector time :
  same_result w w' (closure_test infector time).
Proof.
  unfold same_result, closure_test, and_then.
  apply same_result_bind.
  - eauto 20 with purity.
  - apply same_result_bind.
    + eauto 20 with purity.
    + unfold same_result.
      rewrite !(hasattr_run _ _ _ _ (microcell_of_run infector _)); cbn.
      now rewrite (same_microcell _ _ frame), (same_closure_start_time _ _ frame).
    + intros [|]; [|reflexivity].
      apply same_result_bind;
        [eauto with purity | apply same_intervention_param |].
      intros v. apply agree.
  - intros [|]; [|reflexivity].
    unfold le_time.
    rewrite !(bind_ret_run _ _ _ _ (microcell_of_run infector _)).
    rewrite (same_microcell _ _ frame), (same_closure_start_time _ _ frame).
    destruct (closure_start_time _); reflexivity.
Qed.

Lemma same_closure_inf infector time :
  same_result w w' (closure_inf infector time).
Proof.
  unfold same_result, closure_inf, if_else.
  apply same_result_bind;
    [apply pure_closure_test, collaborators_pure | apply same_closure_test |].
  intros [|]; [apply same_intervention_num | reflexivity].
Qed.

Lemma same_household_inf infector time :
  same_result w w' (household_inf infector time).
Proof.
  unfold same_result, household_inf.
  apply same_result_bind; [|apply same_closure_inf|].
  - unfold closure_inf.
    apply pure_if_else; auto with purity.
    apply pure_closure_test, collaborators_pure.
  - intros c. apply same_result_bind; [apply pure_inf | apply agree |].
    reflexivity.
Qed.

Lemma same_num_groups params place_idx :
  same_result w w' (num_groups params place_idx).
Proof.
  unfold same_result, num_groups, try_except, bind, getitem, of_option.
  destruct (params !! "mean_group_size") as [[q|l]|]; cbn; try reflexivity.
  destruct (py_index l place_idx); reflexivity.
Qed.

Lemma same_place_inf place infector time :
  same_result w w' (place_inf place infector time).
Proof.
  unfold same_result, place_inf.
  apply same_result_bind; [apply pure_place_params_of | |].
  { unfold same_result. rewrite !place_params_of_run; cbn.
    now rewrite (same_parameters _ _ frame). }
  intros params. apply same_result_bind; [apply pure_getitem | |].
  { unfold same_result, getitem. destruct (params !! _); reflexivity. }
  intros transmission. apply same_result_bind; [apply pure_place_at | |].
  { unfold same_result. rewrite !place_at_run; cbn.
    now rewrite (same_places _ _ frame). }
  intros pl. apply same_result_bind; [| apply same_num_groups |].
  { unfold num_groups. auto with purity. }
  intros g. unfold if_else.
  apply same_result_bind;
    [apply pure_closure_test, collaborators_pure | apply same_closure_test |].
  intros [|]; [reflexivity|].
  apply same_result_bind; [apply pure_number | |].
  { unfold same_result. destruct transmission; reflexivity. }
  intros tr. apply same_result_bind; [apply pure_divide | |].
  { unfold same_result, divide. destruct (Qeq_bool g 0); reflexivity. }
  intros q. apply same_result_bind; [apply pure_inf | apply agree |].
  reflexivity.
Qed.

(** One gate of [household_foi] or [place_foi], from [w] to [w']: the factor
    it returns is multiplied by some [r] in [0,1]. *)
Lemma gate_step (x : M Q) infector a time factor :
  pure x -> same_result w w' x ->
  (forall f, factor = Some f -> returns x w f) ->
  start_step time (a (persons w infector)) (a (persons w' infector)) factor ->
  forall x0,
    returns (if_else x (started (person infector) a time) (ret 1)) w x0 ->
    exists x1 r,
      returns (if_else x (started (person infector) a time) (ret 1)) w' x1 /\
      x1 == x0 * r /\ 0 <= r <= 1.
Proof.
  intros Hx Sx Hf [Ea | f Ha Ha' Ef Uf] x0 H0.
  - exists x0, 1. split; [|split; [ring | split; discriminate]].
    revert H0. apply same_result_returns; [now apply pure_gate|].
    unfold same_result. rewrite !if_else_started_person, Ea.
    destruct (active (a (persons w infector)) time); [exact Sx | reflexivity].
  - exists f, f. split; [|split; [|exact Uf]].
    + apply (same_result_returns x f Hx Sx) in Hf; [|exact Ef].
      unfold returns. rewrite if_else_started_person, Ha'. exact Hf.
    + rewrite <- (returns_unique _ _ _ _ (gate_person_inactive x _ _ _ _ Ha) H0).
      ring.
Qed.

Lemma household_susc_step infector infectee time :
  start_step time
    (distancing_start_time (microcells w (microcell (persons w infector))))
    (distancing_start_time (microcells w' (microcell (persons w' infector))))
    (household_factor Distancing w infector) ->
  forall s0,
    returns (household_susc infector infectee time) w s0 ->
    exists s1 r,
      returns (household_susc infector infectee time) w' s1 /\
      s1 == s0 * r /\ 0 <= r <= 1.
Proof.
  intros [Ea | f Ha Ha' Ef Uf] s0 H0.
  - exists s0, 1. split; [|split; [ring | split; discriminate]].
    revert H0.
    apply same_result_returns; [now apply pure_household_susc|].
    unfold same_result.
    rewrite !household_susc_run by apply pure_susc.
    rewrite Ea, (same_distancing_enhanced _ _ frame).
    apply same_result_bind; [apply pure_susc | apply agree |].
    intros s.
    destruct (active (distancing_start_time
                        (microcells w (microcell (persons w infector)))) time);
      [|reflexivity].
    apply same_result_bind; [apply pure_intervention_num | |reflexivity].
    apply same_intervention_num.
  - unfold returns in H0.
    rewrite household_susc_run, Ha in H0 by apply pure_susc.
    apply (returns_bind_inv _ _ _ _ (pure_susc _ _ _)) in H0
      as (s & Hs & Hr).
    rewrite (returns_unique _ _ _ _ Hr (returns_ret s w)).
    exists (s * f), f. split; [|split; [reflexivity | exact Uf]].
    unfold returns. rewrite household_susc_run, Ha' by apply pure_susc.
    eapply returns_bind.
    + apply (same_result_returns _ _ (pure_susc _ _ _)); [apply agree | exact Hs].
    + eapply returns_bind; [|apply returns_ret].
      apply returns_intervention_num.
      rewrite (same_parameters _ _ frame), (same_distancing_enhanced _ _ frame).
      exact Ef.
Qed.

Lemma place_susc_step place infector infectee time :
  start_step time
    (distancing_start_time (microcells w (microcell (persons w infector))))
    (distancing_start_time (microcells w' (microcell (persons w' infector))))
    (place_factor Distancing w place infector) ->
  forall s0,
    returns (place_susc place infector infectee time) w s0 ->
    exists s1 r,
      returns (place_susc place infector infectee time) w' s1 /\
      s1 == s0 * r /\ 0 <= r <= 1.
Proof.
  intros [Ea | f Ha Ha' Ef Uf] s0 H0.
  - exists s0, 1. split; [|split; [ring | split; discriminate]].
    revert H0.
    apply same_result_returns; [apply pure_place_susc|].
    unfold same_result.
    rewrite !(place_susc_run (C := C)), Ea.
    rewrite (same_distancing_enhanced _ _ frame), (same_places _ _ frame).
    destruct (active (distancing_start_time
                        (microcells w (microcell (persons w infector)))) time);
      [|reflexivity].
    apply same_result_bind; [apply pure_intervention_item | |reflexivity].
    apply same_intervention_item.
  - unfold returns in H0. rewrite (place_susc_run (C := C)), Ha in H0.
    rewrite (returns_unique _ _ _ _ H0 (returns_ret 1 w)).
    exists (1 * f), f. split; [|split; [reflexivity | exact Uf]].
    unfold returns. rewrite (place_susc_run (C := C)), Ha'.
    eapply returns_bind; [|apply returns_ret].
    apply returns_intervention_item.
    rewrite (same_parameters _ _ frame), (same_distancing_enhanced _ _ frame),
      (same_places _ _ frame).
    exact Ef.
Qed.

Lemma household_foi_step infector infectee time :
  start_step time (start_time Isolation w infector)
    (start_time Isolation w' infector) (household_factor Isolation w infector) ->
  start_step time (start_time Quarantine w infector)
    (start_time Quarantine w' infector) (household_factor Quarantine w infector) ->
  start_step time (start_time Distancing w infector)
    (start_time Distancing w' infector) (household_factor Distancing w infector) ->
  forall v0,
    returns (household_foi infector infectee time) w v0 -> 0 <= v0 ->
    exists v1, returns (household_foi infector infectee time) w' v1 /\ v1 <= v0.
Proof.
  intros Si Sq Sd v0 H0 Hv0.
  apply household_foi_inv in H0
    as (ci & cs & iso & q & hi & hs & Hci & Hcs & Hiso & Hq & Hhi & Hhs & ->);
    [|exact collaborators_pure].
  apply (same_result_returns _ _ (pure_carehome_scale _) (same_carehome_scale _))
    in Hci, Hcs.
  apply (same_result_returns _ _
           (pure_household_inf collaborators_pure _ _) (same_household_inf _ _))
    in Hhi.
  eapply gate_step in Hiso as (iso' & ri & Hiso & Ei & Ui);
    [ | apply pure_intervention_num | apply same_intervention_num
      | intros f; apply returns_intervention_num | exact Si ].
  eapply gate_step in Hq as (q' & rq & Hq & Eq & Uq);
    [ | apply pure_intervention_num | apply same_intervention_num
      | intros f; apply returns_intervention_num | exact Sq ].
  eapply household_susc_step in Hhs as (hs' & rd & Hhs & Ed & Ud); [|exact Sd].
  eexists. split.
  - apply household_foi_returns; eassumption.
  - rewrite (same_parameters _ _ frame), Ei, Eq, Ed.
    set (ht := household_transmission (parameters w)) in *.
    assert (E : hi * 1 * ht * ci * (iso * ri) * (q * rq) * (hs * rd * cs)
                == hi * 1 * ht * ci * iso * q * (hs * cs) * (ri * rq * rd))
      by ring.
    rewrite E. apply shrink; [exact Hv0|]. auto using unit_mul.
Qed.

Lemma place_foi_step place infector infectee time :
  start_step time (start_time Isolation w infector)
    (start_time Isolation w' infector) (place_factor Isolation w place infector) ->
  start_step time (start_time Quarantine w infector)
    (start_time Quarantine w' infector) (place_factor Quarantine w place infector) ->
  start_step time (start_time Distancing w infector)
    (start_time Distancing w' infector) (place_factor Distancing w place infector) ->
  forall v0,
    returns (place_foi place infector infectee time) w v0 -> 0 <= v0 ->
    exists v1, returns (place_foi place infector infectee time) w' v1 /\ v1 <= v0.
Proof.
  intros Si Sq Sd v0 H0 Hv0.
  apply place_foi_inv in H0
    as (c & iso & q & pi & ps & Hc & Hiso & Hq & Hpi & Hps & ->);
    [|exact collaborators_pure].
  apply (same_result_returns _ _
           (pure_carehome_scale_susc _ _ _) (same_carehome_scale_susc _ _ _))
    in Hc.
  apply (same_result_returns _ _
           (pure_place_inf collaborators_pure _ _ _) (same_place_inf _ _ _))
    in Hpi.
  eapply gate_step in Hiso as (iso' & ri & Hiso & Ei & Ui);
    [ | apply pure_intervention_num | apply same_intervention_num
      | intros f; apply returns_intervention_num | exact Si ].
  eapply gate_step in Hq as (q' & rq & Hq & Eq & Uq);
    [ | apply pure_intervention_item | apply same_intervention_item
      | intros f; apply returns_intervention_item | exact Sq ].
  eapply place_susc_step in Hps as (ps' & rd & Hps & Ed & Ud); [|exact Sd].
  eexists. split.
  - apply place_foi_returns; try eassumption.
    rewrite (same_places _ _ frame). exact Hq.
  - rewrite Ei, Eq, Ed.
    assert (E : pi * (iso * ri) * (q * rq) * (ps * rd * c * (q * rq))
                == pi * iso * q * (ps * c * q) * (ri * rq * rq * rd))
      by ring.
    rewrite E. apply shrink; [exact Hv0|]. auto using unit_mul.
Qed.

End Frame.

Lemma activate_frame m infector t w :
  same_but_start_times w (activate m infector t w).
Proof.
  destruct m; split; try intros r; cbn; try reflexivity;
    try (destruct (Nat.eqb_spec r infector); subst; reflexivity);
    destruct (Nat.eqb_spec r (microcell (persons w infector))); subst;
    reflexivity.
Qed.

Lemma activate_start m infector t w :
  start_time m (activate m infector t w) infector = Val t.
Proof. destruct m; cbn; now rewrite Nat.eqb_refl. Qed.

Lemma activate_other_start m m' infector t w :
  m' <> m ->
  start_time m' (activate m infector t w) infector = start_time m' w infector.
Proof.
  destruct m, m'; intros Hne; try contradiction; cbn;
    rewrite ?Nat.eqb_refl; reflexivity.
Qed.

Lemma modifier_eq_dec (m m' : modifier) : {m = m'} + {m <> m'}.
Proof. decide equality. Qed.

Lemma activate_step m m' infector t w time (factor : option Q) f :
  active (start_time m w infector) time = false ->
  t <= time ->
  0 <= f <= 1 ->
  (m' = m -> factor = Some f) ->
  start_step time (start_time m' w infector)
    (start_time m' (activate m infector t w) infector) factor.
Proof.
  intros Ha Ht Uf Hf. destruct (modifier_eq_dec m' m) as [->|Hne].
  - apply (start_activated _ _ _ _ f); auto.
    rewrite activate_start. cbn. now apply Qle_bool_iff.
  - apply start_unchanged. now rewrite activate_other_start.
Qed.

(** C7.  Take a store in which one of isolation, quarantine or distancing
    is not in force for the infector, and set its start time to some
    [t <= time], leaving everything else (collaborators' answers included)
    as it is.  If the factor the modifier contributes is configured and lies
    in [0,1], and the force of infection computed before was [v0 >= 0], then
    [household_foi] and [place_foi] still return, and what they return is at
    most [v0]. *)
Theorem C7_modifiers_never_increase {C : Collaborators} (w : World)
    (m : modifier) (place infector infectee : ref) (time t : Q) :
  pure_collaborators ->
  collaborators_agree w (activate m infector t w) ->
  active (start_time m w infector) time = false ->
  t <= time ->
  (forall f v0,
     household_factor m w infector = Some f -> 0 <= f <= 1 ->
     returns (household_foi infector infectee time) w v0 -> 0 <= v0 ->
     exists v1,
       returns (household_foi infector infectee time) (activate m infector t w) v1
       /\ v1 <= v0) /\
  (forall f v0,
     place_factor m w place infector = Some f -> 0 <= f <= 1 ->
     returns (place_foi place infector infectee time) w v0 -> 0 <= v0 ->
     exists v1,
       returns (place_foi place infector infectee time) (activate m infector t w) v1
       /\ v1 <= v0).
Proof.
  intros HC Hagree Ha Ht. split; intros f v0 Ef Uf H0 Hv0.
  - apply (household_foi_step w _ HC (activate_frame m infector t w) Hagree
             infector infectee time); auto;
      apply (activate_step m _ infector t w time _ f); auto;
      intros <-; exact Ef.
  - apply (place_foi_step w _ HC (activate_frame m infector t w) Hagree
             place infector infectee time); auto;
      apply (activate_step m _ infector t w time _ f); auto;
      intros <-; exact Ef.
Qed.

Lemma C7_witness :
  (exists v1,
     returns (household_foi (C := constant_collaborators 1 1 false) 0%nat 1%nat 1)
       (activate Quarantine 0%nat 0 (example_world example_person quiet_microcell 1))
       v1
     /\ v1 <= 2 # 10) /\
  (exists v1,
     returns (place_foi (C := constant_collaborators 1 1 false) 0%nat 0%nat 1%nat 1)
       (activate Quarantine 0%nat 0 (example_world example_person quiet_microcell 1))
       v1
     /\ v1 <= 1 # 50).
Proof.
  assert (P : @pure_collaborators (constant_collaborators 1 1 false))
    by (repeat split).
  assert (A : @collaborators_agree (constant_collaborators 1 1 false)
                (example_world example_person quiet_microcell 1)
                (activate Quarantine 0%nat 0
                   (example_world example_person quiet_microcell 1)))
    by (repeat split).
  destruct (C7_modifiers_never_increase (C := constant_collaborators 1 1 false)
              (example_world example_person quiet_microcell 1)
              Quarantine 0%nat 0%nat 1%nat 1 0 P A eq_refl) as [Th Tp];
    [discriminate|].
  split.
  - apply (Th (1 # 2) (2 # 10)); try reflexivity; try discriminate.
    + split; discriminate.
    + split; reflexivity.
  - apply (Tp (1 # 2) (1 # 50)); try reflexivity; try discriminate.
    + split; discriminate.
    + split; reflexivity.
Defined.

(** * Further properties of the two modules *)

(** ** What is read under no intervention *)

Lemma carehome_scale_run r w :
  carehome_scale r w
  = if care_home_resident (persons w r)
    then carehome_num "carehome_resident_household_scaling" w
    else ret 1 w.
Proof.
  unfold carehome_scale. rewrite (bind_ret_run _ _ _ _ (person_run r w)).
  destruct (care_home_resident _); reflexivity.
Qed.

Lemma carehome_scale_susc_run place infector infectee w :
  carehome_scale_susc place infector infectee w
  = if ((place_type (places w place) =? 5)%Z
        && (key_worker (persons w infectee) || key_worker (persons w infector)))%bool
    then carehome_num "carehome_worker_group_scaling" w
    else ret 1 w.
Proof.
  unfold carehome_scale_susc.
  rewrite (bind_ret_run _ _ _ _ (place_at_run place w)).
  rewrite (bind_ret_run _ _ _ _ (person_run infectee w)).
  rewrite (bind_ret_run _ _ _ _ (person_run infector w)).
  destruct (_ && _)%bool; reflexivity.
Qed.

(** With no closure ever scheduled for the infector's microcell, distancing,
    isolation and quarantine not in force and neither person a care home
    resident, [household_foi] reads [household_transmission] and nothing else
    from [Parameters]: whatever [intervention_params] and [carehome_params]
    hold, or lack, it returns infectiousness times transmission times
    susceptibility. *)
Theorem X1_household_foi_reads_only_transmission {C : Collaborators} (w : World)
    (infector infectee : ref) (time p s : Q) (tr_inf tr_susc : list event) :
  person_inf infector time w
    = {| final := w; trace := tr_inf; outcome := Ok p |} ->
  person_susc infector infectee time w
    = {| final := w; trace := tr_susc; outcome := Ok s |} ->
  closure_start_time (microcells w (microcell (persons w infector))) = Absent ->
  active (distancing_start_time (microcells w (microcell (persons w infector))))
    time = false ->
  active (isolation_start_time (persons w infector)) time = false ->
  active (quarantine_start_time (persons w infector)) time = false ->
  care_home_resident (persons w infector) = false ->
  care_home_resident (persons w infectee) = false ->
  household_foi infector infectee time w
  = {| final := w;
       trace := tr_inf ++ Lookup ["household_transmission"] :: tr_susc;
       outcome :=
         Ok (p * 1 * 1 * household_transmission (parameters w) * 1 * 1 * 1
             * (s * 1)) |}.
Proof.
  intros Hp Hs Hc Hd Hi Hq Hr Hr'. unfold household_foi.
  rewrite bind_ret_run with (a := 1) by (now rewrite carehome_scale_run, Hr).
  rewrite bind_ret_run with (a := 1) by (now rewrite carehome_scale_run, Hr').
  rewrite bind_ret_run with (a := 1)
    by (unfold HouseholdInfection.isolating;
        now rewrite if_else_started_person, Hi).
  rewrite bind_ret_run with (a := 1)
    by (unfold HouseholdInfection.quarantine;
        now rewrite if_else_started_person, Hq).
  assert (Hinf : household_inf infector time w
                 = {| final := w; trace := tr_inf; outcome := Ok (p * 1) |}).
  { unfold household_inf.
    rewrite (bind_ret_run _ _ _ _ (closure_inf_absent _ _ _ Hc)).
    rewrite (bind_run _ _ _ _ _ _ Hp). cbn. now rewrite app_nil_r. }
  assert (Hsusc : household_susc infector infectee time w
                  = {| final := w; trace := tr_susc; outcome := Ok s |}).
  { rewrite household_susc_run, Hd by now rewrite Hs.
    rewrite (bind_run _ _ _ _ _ _ Hs). cbn. now rewrite app_nil_r. }
  erewrite bind_run; cycle 1.
  { rewrite (bind_run _ _ _ _ _ _ Hinf).
    rewrite (bind_run _ _ _ _ _ _ (household_transmission_of_run w)).
    cbn. reflexivity. }
  erewrite bind_run; cycle 1.
  { rewrite (bind_run _ _ _ _ _ _ Hsusc). cbn. reflexivity. }
  cbn. rewrite !app_nil_r, <- app_assoc. reflexivity.
Qed.

Lemma X1_witness :
  household_foi (C := constant_collaborators 1 1 false) 0%nat 1%nat 1
    (set_parameters (example_world example_person quiet_microcell 1)
       bare_parameters)
  = {| final := set_parameters (example_world example_person quiet_microcell 1)
                  bare_parameters;
       trace := [] ++ [Lookup ["household_transmission"]];
       outcome := Ok (1 * 1 * 1 * (2 # 10) * 1 * 1 * 1 * (1 * 1)) |}.
Proof.
  apply (X1_household_foi_reads_only_transmission
           (C := constant_collaborators 1 1 false)
           (set_parameters (example_world example_person quiet_microcell 1)
              bare_parameters)
           0%nat 1%nat 1 1 1 [] []);
    reflexivity.
Defined.

(** Under the same conditions at a place that is not a care home with a key
    worker, [place_foi] reads [place_params] and nothing else, and returns
    transmission over group size times infectiousness. *)
Theorem X2_place_foi_reads_only_place_params {C : Collaborators} (w : World)
    (place infector infectee : ref) (time tr p : Q) (sizes : list Q)
    (tr_inf : list event) :
  person_inf infector time w
    = {| final := w; trace := tr_inf; outcome := Ok p |} ->
  place_params (parameters w) !! "place_transmission" = Some (VNum tr) ->
  place_params (parameters w) !! "mean_group_size" = Some (VList sizes) ->
  ~ default 1 (py_index sizes (place_type (places w place) - 1)) == 0 ->
  closure_start_time (microcells w (microcell (persons w infector))) = Absent ->
  active (distancing_start_time (microcells w (microcell (persons w infector))))
    time = false ->
  active (isolation_start_time (persons w infector)) time = false ->
  active (quarantine_start_time (persons w infector)) time = false ->
  ((place_type (places w place) =? 5)%Z
   && (key_worker (persons w infectee) || key_worker (persons w infector)))%bool
  = false ->
  place_foi place infector infectee time w
  = {| final := w;
       trace := Lookup ["place_params"] :: tr_inf;
       outcome :=
         Ok (tr / default 1 (py_index sizes (place_type (places w place) - 1)) * p
             * 1 * 1 * (1 * 1 * 1)) |}.
Proof.
  intros Hp Htr Hs Hg Hc Hd Hi Hq Hk. unfold place_foi.
  rewrite bind_ret_run with (a := 1)
    by (now rewrite carehome_scale_susc_run, Hk).
  rewrite bind_ret_run with (a := 1)
    by (unfold PlaceInfection.isolating; now rewrite if_else_started_person, Hi).
  rewrite (bind_ret_run _ _ _ _ (place_at_run place w)).
  rewrite bind_ret_run with (a := 1)
    by (unfold PlaceInfection.quarantine; now rewrite if_else_started_person, Hq).
  assert (Hinf : place_inf place infector time w
                 = {| final := w;
                      trace := Lookup ["place_params"] :: tr_inf;
                      outcome :=
                        Ok (tr / default 1 (py_index sizes
                                              (place_type (places w place) - 1))
                            * p) |}).
  { unfold place_inf.
    rewrite (bind_run _ _ _ _ _ _ (place_params_of_run w)).
    rewrite (bind_ret_run _ _ _ _ (getitem_run _ _ _ w Htr)).
    rewrite (bind_ret_run _ _ _ _ (place_at_run place w)).
    rewrite (bind_ret_run _ _ _ _ (num_groups_run _ _ _ w Hs)).
    unfold if_else.
    rewrite (bind_ret_run _ _ _ _ (closure_test_absent _ _ _ Hc)).
    rewrite bind_ret_run with (a := tr) by reflexivity.
    rewrite (bind_ret_run _ _ _ _ (divide_run tr _ w Hg)).
    rewrite (bind_run _ _ _ _ _ _ Hp). cbn. now rewrite app_nil_r. }
  erewrite bind_run; cycle 1.
  { rewrite (bind_run _ _ _ _ _ _ Hinf). cbn. reflexivity. }
  erewrite bind_run; cycle 1.
  { rewrite bind_ret_run with (a := 1)
      by (now rewrite (place_susc_run (C := C)), Hd).
    reflexivity. }
  cbn. now rewrite !app_nil_r.
Qed.

Lemma X2_witness :
  place_foi (C := constant_collaborators 2 1 false) 0%nat 0%nat 1%nat 1
    (set_parameters (example_world example_person quiet_microcell 4)
       bare_parameters)
  = {| final := set_parameters (example_world example_person quiet_microcell 4)
                  bare_parameters;
       trace := [Lookup ["place_params"]];
       outcome := Ok (1 / 20 * 2 * 1 * 1 * (1 * 1 * 1)) |}.
Proof.
  apply (X2_place_foi_reads_only_place_params
           (C := constant_collaborators 2 1 false)
           (set_parameters (example_world example_person quiet_microcell 4)
              bare_parameters)
           0%nat 0%nat 1%nat 1 1 2 [50; 40; 30; 20] []);
    try reflexivity.
  discriminate.
Defined.

(** ** A gate in force with its key missing *)

(** If isolation is in force for the infector and its effectiveness is not
    configured, [household_foi] and [place_foi] raise [KeyError] right at the
    lookup, before infectiousness or susceptibility is asked for.  (Stated
    where no care home scaling is read first.) *)
Theorem X3_missing_isolation_key {C : Collaborators} (w : World)
    (place infector infectee : ref) (time : Q) :
  active (isolation_start_time (persons w infector)) time = true ->
  (care_home_resident (persons w infector) = false ->
   care_home_resident (persons w infectee) = false ->
   intervention_value (parameters w) "case_isolation"
     "isolation_house_effectiveness" = None ->
   household_foi infector infectee time w
   = {| final := w;
        trace := [Lookup ["intervention_params"; "case_isolation";
                          "isolation_house_effectiveness"]];
        outcome := Raise KeyError |}) /\
  (((place_type (places w place) =? 5)%Z
    && (key_worker (persons w infectee) || key_worker (persons w infector)))%bool
   = false ->
   intervention_value (parameters w) "case_isolation" "isolation_effectiveness"
     = None ->
   place_foi place infector infectee time w
   = {| final := w;
        trace := [Lookup ["intervention_params"; "case_isolation";
                          "isolation_effectiveness"]];
        outcome := Raise KeyError |}).
Proof.
  intros Hi. split.
  - intros Hr Hr' V. unfold household_foi.
    rewrite bind_ret_run with (a := 1) by (now rewrite carehome_scale_run, Hr).
    rewrite bind_ret_run with (a := 1) by (now rewrite carehome_scale_run, Hr').
    apply bind_raise_run. unfold HouseholdInfection.isolating.
    now rewrite if_else_started_person, Hi, intervention_num_run, V.
  - intros Hk V. unfold place_foi.
    rewrite bind_ret_run with (a := 1)
      by (now rewrite carehome_scale_susc_run, Hk).
    apply bind_raise_run. unfold PlaceInfection.isolating.
    now rewrite if_else_started_person, Hi, intervention_num_run, V.
Qed.

Lemma X3_witness :
  outcome
    (household_foi (C := constant_collaborators 1 1 false) 0%nat 1%nat 1
       (set_parameters
          (example_world (with_isolation example_person (Val 0)) quiet_microcell 1)
          bare_parameters))
  = Raise KeyError /\
  outcome
    (place_foi (C := constant_collaborators 1 1 false) 0%nat 0%nat 1%nat 1
       (set_parameters
          (example_world (with_isolation example_person (Val 0)) quiet_microcell 1)
          bare_parameters))
  = Raise KeyError.
Proof.
  destruct (X3_missing_isolation_key (C := constant_collaborators 1 1 false)
              (set_parameters
                 (example_world (with_isolation example_person (Val 0))
                    quiet_microcell 1)
                 bare_parameters)
              0%nat 0%nat 1%nat 1 eq_refl) as [Th Tp].
  split.
  - rewrite Th; reflexivity.
  - rewrite Tp; reflexivity.
Defined.

(** ** A closure start time of [None] *)

Lemma closure_test_None {C : Collaborators} w infector time closure_place_type :
  closure_start_time (microcells w (microcell (persons w infector))) = PyNone ->
  intervention_value (parameters w) "place_closure" "closure_place_type"
    = Some closure_place_type ->
  returns (is_place_closed infector closure_place_type) w true ->
  closure_test infector time w
  = {| final := w;
       trace := Lookup ["intervention_params"; "place_closure"; "closure_place_type"]
                :: trace (is_place_closed infector closure_place_type w);
       outcome := Raise TypeError |}.
Proof.
  intros E V [Hw Hc]. unfold closure_test.
  unfold and_then at 1.
  erewrite bind_run; cycle 1.
  { rewrite and_then_true.
    - erewrite bind_run by (rewrite intervention_param_run, V; reflexivity).
      rewrite Hw, Hc. reflexivity.
    - rewrite (hasattr_run _ _ _ _ (microcell_of_run infector w)).
      now rewrite E. }
  unfold le_time. rewrite (bind_ret_run _ _ _ _ (microcell_of_run infector w)).
  rewrite E. cbn. now rewrite app_nil_r.
Qed.

(** The closure test has no [is not None] guard: when the microcell's
    [closure_start_time] is [None] and [is_place_closed] answers true, the
    comparison with [time] raises [TypeError] in [household_inf] and in
    [place_inf].  (For distancing, isolation and quarantine a start of [None]
    just leaves the factor at 1.) *)
Theorem X4_unset_closure_start_raises {C : Collaborators} (w : World)
    (place infector : ref) (time : Q) (closure_place_type : value) :
  closure_start_time (microcells w (microcell (persons w infector))) = PyNone ->
  intervention_value (parameters w) "place_closure" "closure_place_type"
    = Some closure_place_type ->
  returns (is_place_closed infector closure_place_type) w true ->
  raises (household_inf infector time) w TypeError /\
  (forall transmission sizes,
     place_params (parameters w) !! "place_transmission" = Some transmission ->
     place_params (parameters w) !! "mean_group_size" = Some (VList sizes) ->
     raises (place_inf place infector time) w TypeError).
Proof.
  intros E V R.
  pose proof (closure_test_None w infector time _ E V R) as T.
  split.
  - unfold household_inf, closure_inf, if_else.
    apply raises_bind_l, raises_bind_l. eapply raises_run. exact T.
  - intros transmission sizes Htr Hs. unfold place_inf.
    eapply raises_bind_r; [exact (returns_run _ _ _ _ (place_params_of_run w))|].
    eapply raises_bind_r;
      [exact (returns_of_ret _ _ _ (getitem_run _ _ _ w Htr))|].
    eapply raises_bind_r; [exact (returns_of_ret _ _ _ (place_at_run place w))|].
    eapply raises_bind_r;
      [exact (returns_of_ret _ _ _ (num_groups_run _ _ _ w Hs))|].
    unfold if_else. apply raises_bind_l. eapply raises_run. exact T.
Qed.

Lemma X4_witness :
  raises (household_inf (C := constant_collaborators 1 1 true) 0%nat 1)
    (example_world example_person unset_closure_microcell 1) TypeError /\
  raises (place_inf (C := constant_collaborators 1 1 true) 0%nat 0%nat 1)
    (example_world example_person unset_closure_microcell 1) TypeError.
Proof.
  destruct (X4_unset_closure_start_raises (C := constant_collaborators 1 1 true)
              (example_world example_person unset_closure_microcell 1)
              0%nat 0%nat 1 (VList [1; 2; 3]))
    as [Th Tp]; [reflexivity | reflexivity | split; reflexivity |].
  split; [exact Th|].
  apply (Tp (VNum 1) [50; 40; 30; 20]); reflexivity.
Defined.

(** ** Care home scaling *)

(** [household_foi] applies [carehome_resident_household_scaling] once for a
    resident infector (to infectiousness) and once for a resident infectee
    (to susceptibility); between two residents it enters twice. *)
Theorem X5_resident_scaling_on_each_side {C : Collaborators} (w : World)
    (infector infectee : ref) (time k iso q hi hs : Q) :
  carehome_params (parameters w) !! "carehome_resident_household_scaling"
    = Some (VNum k) ->
  returns (HouseholdInfection.isolating infector time) w iso ->
  returns (HouseholdInfection.quarantine infector time) w q ->
  returns (household_inf infector time) w hi ->
  returns (household_susc infector infectee time) w hs ->
  returns (household_foi infector infectee time) w
    (hi * 1 * household_transmission (parameters w)
     * (if care_home_resident (persons w infector) then k else 1) * iso * q
     * (hs * (if care_home_resident (persons w infectee) then k else 1))).
Proof.
  intros V Hiso Hq Hhi Hhs.
  assert (Hc : forall r,
             returns (carehome_scale r) w
               (if care_home_resident (persons w r) then k else 1)).
  { intros r. unfold returns. rewrite carehome_scale_run.
    destruct (care_home_resident _); [|split; reflexivity].
    rewrite carehome_num_run, V. split; reflexivity. }
  apply household_foi_returns; auto.
Qed.

Lemma X5_witness :
  returns (household_foi (C := constant_collaborators 1 1 false) 0%nat 1%nat 1)
    (example_world care_home_person quiet_microcell 1)
    (1 * 1 * 1 * (2 # 10) * (1 # 2) * 1 * 1 * (1 * (1 # 2))).
Proof.
  apply (X5_resident_scaling_on_each_side (C := constant_collaborators 1 1 false)
           (example_world care_home_person quiet_microcell 1)
           0%nat 1%nat 1 (1 # 2) 1 1 (1 * 1) 1);
    try reflexivity; split; reflexivity.
Defined.

(** [place_foi] applies [carehome_worker_group_scaling], to susceptibility,
    exactly when the place's type is 5 and the infectee or the infector is a
    key worker. *)
Theorem X6_worker_scaling_in_care_homes {C : Collaborators} (w : World)
    (place infector infectee : ref) (time k iso q pi ps : Q) :
  carehome_params (parameters w) !! "carehome_worker_group_scaling"
    = Some (VNum k) ->
  returns (PlaceInfection.isolating infector time) w iso ->
  returns (PlaceInfection.quarantine (place_type (places w place) - 1)
             infector time) w q ->
  returns (place_inf place infector time) w pi ->
  returns (place_susc place infector infectee time) w ps ->
  returns (place_foi place infector infectee time) w
    (pi * iso * q
     * (ps
        * (if ((place_type (places w place) =? 5)%Z
               && (key_worker (persons w infectee)
                   || key_worker (persons w infector)))%bool
           then k else 1)
        * q)).
Proof.
  intros V Hiso Hq Hpi Hps.
  apply place_foi_returns; auto.
  unfold returns. rewrite carehome_scale_susc_run.
  destruct (_ && _)%bool; [|split; reflexivity].
  rewrite carehome_num_run, V. split; reflexivity.
Qed.

Lemma X6_witness :
  returns (place_foi (C := constant_collaborators 1 1 false) 0%nat 0%nat 1%nat 1)
    (example_world care_home_person quiet_microcell 5)
    (1 / 1 * 1 * 1 * 1 * (1 * (1 # 2) * 1)) /\
  returns (place_foi (C := constant_collaborators 1 1 false) 0%nat 0%nat 1%nat 1)
    (example_world care_home_person quiet_microcell 4)
    (1 / 20 * 1 * 1 * 1 * (1 * 1 * 1)).
Proof.
  split.
  - apply (X6_worker_scaling_in_care_homes (C := constant_collaborators 1 1 false)
             (example_world care_home_person quiet_microcell 5)
             0%nat 0%nat 1%nat 1 (1 # 2) 1 1 (1 / 1 * 1) 1);
      try reflexivity; split; reflexivity.
  - apply (X6_worker_scaling_in_care_homes (C := constant_collaborators 1 1 false)
             (example_world care_home_person quiet_microcell 4)
             0%nat 0%nat 1%nat 1 (1 # 2) 1 1 (1 / 20 * 1) 1);
      try reflexivity; split; reflexivity.
Defined.

(** ** Places: closed, open, misconfigured *)

(** While closure is in force for the infector, the force of infection of the
    place is 0, whatever isolation, quarantine, distancing and care home
    scaling contribute. *)
Theorem X7_closed_place_has_no_force {C : Collaborators} (w : World)
    (place infector infectee : ref) (time t : Q) (closure_place_type : value)
    (transmission : value) (sizes : list Q) (c iso q ps : Q) :
  closure_start_time (microcells w (microcell (persons w infector))) = Val t ->
  t <= time ->
  intervention_value (parameters w) "place_closure" "closure_place_type"
    = Some closure_place_type ->
  returns (is_place_closed infector closure_place_type) w true ->
  place_params (parameters w) !! "place_transmission" = Some transmission ->
  place_params (parameters w) !! "mean_group_size" = Some (VList sizes) ->
  returns (carehome_scale_susc place infector infectee) w c ->
  returns (PlaceInfection.isolating infector time) w iso ->
  returns (PlaceInfection.quarantine (place_type (places w place) - 1)
             infector time) w q ->
  returns (place_susc place infector infectee time) w ps ->
  returns (place_foi place infector infectee time) w (0 * iso * q * (ps * c * q))
  /\ 0 * iso * q * (ps * c * q) == 0.
Proof.
  intros E Ht V R Htr Hs Hc Hiso Hq Hps. split; [|ring].
  apply place_foi_returns; auto.
  eapply place_inf_closed; eauto using closure_test_active.
Qed.

Lemma X7_witness :
  returns (place_foi (C := constant_collaborators 1 1 true) 0%nat 0%nat 1%nat 1)
    (example_world (with_isolation example_person (Val 0)) closing_microcell 1)
    (0 * (1 # 4) * 1 * (1 * 1 * 1))
  /\ 0 * (1 # 4) * 1 * (1 * 1 * 1) == 0.
Proof.
  apply (X7_closed_place_has_no_force (C := constant_collaborators 1 1 true)
           (example_world (with_isolation example_person (Val 0))
              closing_microcell 1)
           0%nat 0%nat 1%nat 1 0 (VList [1; 2; 3]) (VNum 1) [50; 40; 30; 20]);
    try reflexivity; try discriminate; split; reflexivity.
Defined.

(** For a place whose type has a configured, non-zero mean group size and
    with closure not in force, [place_inf] is the place transmission divided
    by that group size, times the personal infectiousness. *)
Theorem X8_place_inf_per_group {C : Collaborators} (w : World)
    (place infector : ref) (time : Q) (sizes : list Q) (tr size p : Q) :
  place_params (parameters w) !! "place_transmission" = Some (VNum tr) ->
  place_params (parameters w) !! "mean_group_size" = Some (VList sizes) ->
  py_index sizes (place_type (places w place) - 1) = Some size ->
  ~ size == 0 ->
  closure_inactive w infector time ->
  returns (person_inf infector time) w p ->
  returns (place_inf place infector time) w (tr / size * p).
Proof.
  intros Htr Hs Hi Hz Hc Hp.
  pose proof (place_inf_open w place infector time (VNum tr) sizes Htr Hs tr p)
    as T.
  rewrite Hi in T. apply T; auto using closure_test_inactive.
Qed.

Lemma X8_witness :
  returns (place_inf (C := constant_collaborators 2 1 false) 0%nat 0%nat 1)
    (example_world example_person closing_microcell 2) (1 / 40 * 2).
Proof.
  apply (X8_place_inf_per_group (C := constant_collaborators 2 1 false)
           (example_world example_person closing_microcell 2)
           0%nat 0%nat 1 [50; 40; 30; 20] 1 40 2);
    try reflexivity; try discriminate.
  - apply (closure_not_for_this_person _ _ _ (VList [1; 2; 3]));
      [discriminate | reflexivity | split; reflexivity].
  - split; reflexivity.
Defined.

(** The [except IndexError] of [place_inf] catches nothing else: if
    [place_params] lacks ["place_transmission"] or ["mean_group_size"],
    [place_inf] raises [KeyError] after its one read of [Parameters], for an
    open and for a closed place alike. *)
Theorem X9_place_inf_missing_key {C : Collaborators} (w : World)
    (place infector : ref) (time : Q) :
  place_params (parameters w) !! "place_transmission" = None \/
  place_params (parameters w) !! "mean_group_size" = None ->
  place_inf place infector time w
  = {| final := w; trace := [Lookup ["place_params"]]; outcome := Raise KeyError |}.
Proof.
  intros H. unfold place_inf.
  rewrite (bind_run _ _ _ _ _ _ (place_params_of_run w)).
  destruct (place_params (parameters w) !! "place_transmission") as [v|] eqn:Htr.
  - destruct H as [H|H]; [discriminate|].
    rewrite (bind_ret_run _ _ _ _ (getitem_run _ _ _ w Htr)).
    rewrite (bind_ret_run _ _ _ _ (place_at_run place w)).
    assert (G : num_groups (place_params (parameters w))
                  (place_type (places w place) - 1) w
                = {| final := w; trace := []; outcome := Raise KeyError |}).
    { unfold num_groups, try_except, bind, getitem. rewrite H. reflexivity. }
    rewrite (bind_raise_run _ _ _ _ _ _ G). reflexivity.
  - assert (G : getitem (place_params (parameters w)) "place_transmission" w
                = {| final := w; trace := []; outcome := Raise KeyError |}).
    { unfold getitem. rewrite Htr. reflexivity. }
    rewrite (bind_raise_run _ _ _ _ _ _ G). reflexivity.
Qed.

Lemma X9_witness :
  place_inf (C := constant_collaborators 2 1 true) 0%nat 0%nat 1
    (set_parameters (example_world example_person closing_microcell 1)
       {| household_transmission := 1;
          place_params := {[ "place_transmission" := VNum 1 ]};
          carehome_params := ∅;
          intervention_params := intervention_params example_parameters |})
  = {| final :=
         set_parameters (example_world example_person closing_microcell 1)
           {| household_transmission := 1;
              place_params := {[ "place_transmission" := VNum 1 ]};
              carehome_params := ∅;
              intervention_params := intervention_params example_parameters |};
       trace := [Lookup ["place_params"]];
       outcome := Raise KeyError |}.
Proof.
  apply (X9_place_inf_missing_key (C := constant_collaborators 2 1 true)).
  right. reflexivity.
Defined.

(** ** The force of infection as a product *)



(** ** What the start times are used for *)

Section SameGates.
Context {C : Collaborators}.
Variables (w w' : World) (infector : ref) (time : Q).
Hypothesis collaborators_pure : pure_collaborators.
Hypothesis frame : same_but_start_times w w'.
Hypothesis agree : collaborators_agree w w'.
Hypothesis same_isolation :
  active (start_time Isolation w' infector) time
  = active (start_time Isolation w infector) time.
Hypothesis same_quarantine :
  active (start_time Quarantine w' infector) time
  = active (start_time Quarantine w infector) time.
Hypothesis same_distancing :
  active (start_time Distancing w' infector) time
  = active (start_time Distancing w infector) time.

Lemma same_gate (x : M Q) (a : Person -> attr) :
  active (a (persons w' infector)) time = active (a (persons w infector)) time ->
  same_result w w' x ->
  same_result w w' (if_else x (started (person infector) a time) (ret 1)).
Proof.
  intros Ea Sx. unfold same_result.
  rewrite !if_else_started_person, Ea.
  destruct (active (a (persons w infector)) time); [exact Sx | reflexivity].
Qed.

Lemma same_household_susc infectee :
  same_result w w' (household_susc infector infectee time).
Proof.
  unfold same_result.
  rewrite !household_susc_run by apply collaborators_pure.
  cbn in same_distancing. rewrite same_distancing.
  rewrite (same_distancing_enhanced _ _ frame).
  apply same_result_bind; [apply collaborators_pure | apply agree |].
  intros s.
  destruct (active (distancing_start_time
                      (microcells w (microcell (persons w infector)))) time);
    [|reflexivity].
  apply same_result_bind; [apply pure_intervention_num | |reflexivity].
  now apply same_intervention_num.
Qed.

Lemma same_place_susc place infectee :
  same_result w w' (place_susc place infector infectee time).
Proof.
  unfold same_result.
  rewrite !(place_susc_run (C := C)).
  cbn in same_distancing. rewrite same_distancing.
  rewrite (same_distancing_enhanced _ _ frame), (same_places _ _ frame).
  destruct (active (distancing_start_time
                      (microcells w (microcell (persons w infector)))) time);
    [|reflexivity].
  apply same_result_bind; [apply pure_intervention_item | |reflexivity].
  now apply same_intervention_item.
Qed.

Lemma same_household_foi infectee :
  same_result w w' (household_foi infector infectee time).
Proof.
  unfold same_result, household_foi.
  apply same_result_bind;
    [apply pure_carehome_scale | now apply same_carehome_scale | intros ci].
  apply same_result_bind;
    [apply pure_carehome_scale | now apply same_carehome_scale | intros cs].
  apply same_result_bind;
    [apply pure_gate, pure_intervention_num
    | apply same_gate; [exact same_isolation | now apply same_intervention_num]
    | intros iso].
  apply same_result_bind;
    [apply pure_gate, pure_intervention_num
    | apply same_gate; [exact same_quarantine | now apply same_intervention_num]
    | intros q].
  apply same_result_bind.
  - auto using pure_household_inf with purity.
  - unfold same_result.
    apply same_result_bind;
      [now apply pure_household_inf | now apply same_household_inf | intros hi].
    apply same_result_bind; [apply pure_household_transmission_of | |reflexivity].
    unfold same_result. rewrite !household_transmission_of_run; cbn.
    now rewrite (same_parameters _ _ frame).
  - intros infectiousness.
    apply same_result_bind; [| |reflexivity].
    + auto using pure_household_susc with purity.
    + unfold same_result.
      apply same_result_bind;
        [now apply pure_household_susc | apply same_household_susc | reflexivity].
Qed.

Lemma same_place_foi place infectee :
  same_result w w' (place_foi place infector infectee time).
Proof.
  unfold same_result, place_foi.
  apply same_result_bind;
    [apply pure_carehome_scale_susc | now apply same_carehome_scale_susc
    | intros c].
  apply same_result_bind;
    [apply pure_gate, pure_intervention_num
    | apply same_gate; [exact same_isolation | now apply same_intervention_num]
    | intros iso].
  apply same_result_bind; [apply pure_place_at | | intros pl].
  { unfold same_result. rewrite !place_at_run; cbn.
    now rewrite (same_places _ _ frame). }
  apply same_result_bind;
    [apply pure_gate, pure_intervention_item
    | apply same_gate; [exact same_quarantine | now apply same_intervention_item]
    | intros q].
  apply same_result_bind.
  - auto using pure_place_inf with purity.
  - unfold same_result.
    apply same_result_bind;
      [now apply pure_place_inf | now apply same_place_inf | reflexivity].
  - intros infectiousness.
    apply same_result_bind; [| |reflexivity].
    + auto using pure_place_susc with purity.
    + unfold same_result.
      apply same_result_bind;
        [apply pure_place_susc | apply same_place_susc | reflexivity].
Qed.

End SameGates.

(** The start times of isolation, quarantine and distancing enter
    [household_foi] and [place_foi] only through whether each is in force for
    the infector at [time].  Changing them in any other way (for the
    infectee, for other persons and microcells, or to another value on the
    same side of [time]) leaves the result as it was. *)
Theorem X11_only_the_infectors_gates_matter {C : Collaborators} (w w' : World)
    (place infector infectee : ref) (time : Q) :
  pure_collaborators ->
  same_but_start_times w w' ->
  collaborators_agree w w' ->
  (forall m,
     active (start_time m w' infector) time
     = active (start_time m w infector) time) ->
  outcome (household_foi infector infectee time w')
  = outcome (household_foi infector infectee time w) /\
  outcome (place_foi place infector infectee time w')
  = outcome (place_foi place infector infectee time w).
Proof.
  intros HC Hf Ha Hm. split.
  - apply (same_household_foi w w' infector time HC Hf Ha
             (Hm Isolation) (Hm Quarantine) (Hm Distancing)).
  - apply (same_place_foi w w' infector time HC Hf Ha
             (Hm Isolation) (Hm Quarantine) (Hm Distancing)).
Qed.

(** An isolated and quarantined infectee: nothing changes. *)
Lemma X11_witness :
  outcome
    (household_foi (C := constant_collaborators 1 1 false) 0%nat 1%nat 1
       (set_person (example_world example_person quiet_microcell 1) 1%nat
          (with_quarantine (with_isolation example_person (Val 0)) (Val 0))))
  = outcome
      (household_foi (C := constant_collaborators 1 1 false) 0%nat 1%nat 1
         (example_world example_person quiet_microcell 1)) /\
  outcome
    (place_foi (C := constant_collaborators 1 1 false) 0%nat 0%nat 1%nat 1
       (set_person (example_world example_person quiet_microcell 1) 1%nat
          (with_quarantine (with_isolation example_person (Val 0)) (Val 0))))
  = outcome
      (place_foi (C := constant_collaborators 1 1 false) 0%nat 0%nat 1%nat 1
         (example_world example_person quiet_microcell 1)).
Proof.
  apply (X11_only_the_infectors_gates_matter
           (C := constant_collaborators 1 1 false)).
  - repeat split.
  - split; try intros r; cbn; try destruct (Nat.eqb r 1); reflexivity.
  - repeat split.
  - intros m; destruct m; reflexivity.
Defined.

(** Several modifiers at once: going from [w] to [w'], where each of
    isolation, quarantine and distancing either stays as it is or comes into
    force with a factor in [0,1], a force of infection [v0 >= 0] does not
    grow. *)
Theorem X12_modifiers_together_never_increase {C : Collaborators} (w w' : World)
    (place infector infectee : ref) (time : Q) :
  pure_collaborators ->
  same_but_start_times w w' ->
  collaborators_agree w w' ->
  ((forall m,
      start_step time (start_time m w infector) (start_time m w' infector)
        (household_factor m w infector)) ->
   forall v0,
     returns (household_foi infector infectee time) w v0 -> 0 <= v0 ->
     exists v1,
       returns (household_foi infector infectee time) w' v1 /\ v1 <= v0) /\
  ((forall m,
      start_step time (start_time m w infector) (start_time m w' infector)
        (place_factor m w place infector)) ->
   forall v0,
     returns (place_foi place infector infectee time) w v0 -> 0 <= v0 ->
     exists v1,
       returns (place_foi place infector infectee time) w' v1 /\ v1 <= v0).
Proof.
  intros HC Hf Ha. split; intros Hm.
  - apply (household_foi_step w w' HC Hf Ha infector infectee time); apply Hm.
  - apply (place_foi_step w w' HC Hf Ha place infector infectee time); apply Hm.
Qed.

(** Isolation and quarantine started together. *)
Lemma X12_witness :
  exists v1,
    returns (household_foi (C := constant_collaborators 1 1 false) 0%nat 1%nat 1)
      (activate Isolation 0%nat 0
         (activate Quarantine 0%nat 0
            (example_world example_person quiet_microcell 1)))
      v1
    /\ v1 <= 2 # 10.
Proof.
  apply (X12_modifiers_together_never_increase
           (C := constant_collaborators 1 1 false)
           (example_world example_person quiet_microcell 1)
           (activate Isolation 0%nat 0
              (activate Quarantine 0%nat 0
                 (example_world example_person quiet_microcell 1)))
           0%nat 0%nat 1%nat 1).
  - repeat split.
  - split; try intros r; cbn; try destruct (Nat.eqb r 0); reflexivity.
  - repeat split.
  - intros m; destruct m.
    + apply (start_activated _ _ _ _ (1 # 2));
        [reflexivity | reflexivity | reflexivity | split; discriminate].
    + apply (start_activated _ _ _ _ (1 # 2));
        [reflexivity | reflexivity | reflexivity | split; discriminate].
    + apply start_unchanged. reflexivity.
  - split; reflexivity.
  - discriminate.
Defined.

(** ** Non-negative parts *)



(** ** A scalar where a list is expected *)

(** Indexing a per-place-type parameter that was configured as a single
    number raises [TypeError]: in [place_inf] for [mean_group_size] (the
    [except IndexError] does not catch it, closed place or not), and in
    [place_susc] for the distancing factor once distancing is in force. *)
Theorem X14_scalar_instead_of_list {C : Collaborators} (w : World)
    (place infector infectee : ref) (time size : Q) :
  (forall transmission,
     place_params (parameters w) !! "place_transmission" = Some transmission ->
     place_params (parameters w) !! "mean_group_size" = Some (VNum size) ->
     place_inf place infector time w
     = {| final := w;
          trace := [Lookup ["place_params"]];
          outcome := Raise TypeError |}) /\
  (forall factor,
     active (distancing_start_time (microcells w (microcell (persons w infector))))
       time = true ->
     intervention_value (parameters w) "social_distancing"
       (if distancing_enhanced (persons w infector)
        then "distancing_place_enhanced_susc"
        else "distancing_place_susc") = Some (VNum factor) ->
     raises (place_susc place infector infectee time) w TypeError).
Proof.
  split.
  - intros transmission Htr Hs. unfold place_inf.
    rewrite (bind_run _ _ _ _ _ _ (place_params_of_run w)).
    rewrite (bind_ret_run _ _ _ _ (getitem_run _ _ _ w Htr)).
    rewrite (bind_ret_run _ _ _ _ (place_at_run place w)).
    assert (G : num_groups (place_params (parameters w))
                  (place_type (places w place) - 1) w
                = {| final := w; trace := []; outcome := Raise TypeError |}).
    { unfold num_groups, try_except.
      rewrite (bind_ret_run _ _ _ _ (getitem_run _ _ _ w Hs)). reflexivity. }
    rewrite (bind_raise_run _ _ _ _ _ _ G). reflexivity.
  - intros factor Ha V. unfold raises.
    rewrite (place_susc_run (C := C)), Ha.
    erewrite bind_raise_run; [reflexivity|].
    rewrite intervention_item_run, V. reflexivity.
Qed.

Lemma X14_witness :
  outcome
    (place_inf (C := constant_collaborators 1 1 true) 0%nat 0%nat 1
       (set_parameters (example_world example_person closing_microcell 1)
          {| household_transmission := 1;
             place_params :=
               {[ "place_transmission" := VNum 1; "mean_group_size" := VNum 30 ]};
             carehome_params := ∅;
             intervention_params := intervention_params example_parameters |}))
  = Raise TypeError /\
  raises (place_susc 0%nat 0%nat 1%nat 1)
    (set_parameters (example_world example_person distancing_microcell 1)
       {| household_transmission := 1;
          place_params := ∅;
          carehome_params := ∅;
          intervention_params :=
            {[ "social_distancing" :=
                 {[ "distancing_place_susc" := VNum (1 # 2) ]} ]} |})
    TypeError.
Proof.
  split.
  - destruct (X14_scalar_instead_of_list (C := constant_collaborators 1 1 true)
                (set_parameters (example_world example_person closing_microcell 1)
                   {| household_transmission := 1;
                      place_params :=
                        {[ "place_transmission" := VNum 1;
                           "mean_group_size" := VNum 30 ]};
                      carehome_params := ∅;
                      intervention_params :=
                        intervention_params example_parameters |})
                0%nat 0%nat 1%nat 1 30) as [T _].
    rewrite (T (VNum 1)); reflexivity.
  - destruct (X14_scalar_instead_of_list (C := constant_collaborators 1 1 true)
                (set_parameters
                   (example_world example_person distancing_microcell 1)
                   {| household_transmission := 1;
                      place_params := ∅;
                      carehome_params := ∅;
                      intervention_params :=
                        {[ "social_distancing" :=
                             {[ "distancing_place_susc" := VNum (1 # 2) ]} ]} |})
                0%nat 0%nat 1%nat 1 0) as [_ T].
    apply (T (1 # 2)); reflexivity.
Defined.
